(** * mini-rag: incremental indexing and knowledge-graph extraction

    A shallow embedding of [app/main.py]: the document lifecycle
    ([import_documents], [remove_document_by_id], [add_document_maps]),
    the embedding leg ([embed_document], [get_excerpts]) and the
    extraction leg ([extract_entities]), with the properties the
    specification states about them.

    Python [str] values are modelled as [string] (characters with code
    points below 256), Python [int] as [Z], the JSON mapping files and the
    vector index as finite maps keyed by strings, and a raised exception
    as the [Raise] result of a state-and-error monad whose state survives
    the exception, as files on disk do. The graph file is modelled by
    what [nx.read_graphml] makes of it; the file [nx.write_graphml]
    leaves for a graph is a parameter, like the answers of the models. *)

From Stdlib Require Import ZArith Ascii String.
From stdpp Require Import gmap strings list fin_maps.

Local Open Scope Z_scope.

(** ** Results of fallible code *)

(** The exceptions that the modelled code can raise. [ValueError] is what
    [range] raises for a zero step; [ModelCallError] stands for any
    exception coming out of [get_completion] or [get_embedding]. *)
Inductive exn : Type :=
  | ValueError
  | ModelCallError.

Inductive result (A : Type) : Type :=
  | Ok (a : A)
  | Raise (e : exn).

Arguments Ok {A} a.
Arguments Raise {A} e.

(** ** Python built-ins used by [main.py] *)

Module Py.

(** [for i in range(start, stop, step)] with a positive step: [i] starts
    at [start] and advances by [step] while [i < stop]. *)
Fixpoint range_up (fuel : nat) (i stop step : Z) : list Z :=
  match fuel with
  | O => []
  | S fuel' =>
      if i <? stop then i :: range_up fuel' (i + step) stop step else []
  end.

(** The same with a negative step: [i] decreases while [i > stop]. *)
Fixpoint range_down (fuel : nat) (i stop step : Z) : list Z :=
  match fuel with
  | O => []
  | S fuel' =>
      if stop <? i then i :: range_down fuel' (i + step) stop step else []
  end.

(** [range(start, stop, step)]: a zero step raises [ValueError]; otherwise
    at most [|stop - start|] values are produced, which bounds the loop. *)
Definition range (start stop step : Z) : result (list Z) :=
  if step =? 0 then Raise ValueError
  else if 0 <? step
       then Ok (range_up (Z.to_nat (stop - start)) start stop step)
       else Ok (range_down (Z.to_nat (start - stop)) start stop step).

(** Index adjustment of a slice bound: a negative bound counts from the
    end, and every bound is clamped to [0 .. len]. *)
Definition slice_index (len i : Z) : Z :=
  if i <? 0 then Z.max (i + len) 0 else Z.min i len.

(** [s[lo:hi]] *)
Definition slice (s : string) (lo hi : Z) : string :=
  let len := Z.of_nat (String.length s) in
  let a := slice_index len lo in
  let b := slice_index len hi in
  String.substring (Z.to_nat a) (Z.to_nat (b - a)) s.

(** [s.startswith(p)] *)
Fixpoint startswith (s p : string) : bool :=
  match p, s with
  | EmptyString, _ => true
  | String _ _, EmptyString => false
  | String a p', String b s' => if Ascii.eqb a b then startswith s' p' else false
  end.

(** Reversal of a string, used for the operations that look at its end. *)
Fixpoint rev_onto (s acc : string) : string :=
  match s with
  | EmptyString => acc
  | String c s' => rev_onto s' (String c acc)
  end.

Definition rev (s : string) : string := rev_onto s EmptyString.

(** [s.endswith(p)] *)
Definition endswith (s p : string) : bool := startswith (rev s) (rev p).

(** [str.isspace] on one character (code points below 256). *)
Definition isspace (c : ascii) : bool :=
  let n := nat_of_ascii c in
  ((9 <=? n) && (n <=? 13) || (28 <=? n) && (n <=? 32)
   || (n =? 133) || (n =? 160))%nat.

Fixpoint lstrip (s : string) : string :=
  match s with
  | EmptyString => EmptyString
  | String c s' => if isspace c then lstrip s' else s
  end.

(** [s.strip()] *)
Definition strip (s : string) : string := rev (lstrip (rev (lstrip s))).

(** [str.lower] on one character (code points below 256). *)
Definition lower_char (c : ascii) : ascii :=
  let n := nat_of_ascii c in
  if ((65 <=? n) && (n <=? 90)
      || (192 <=? n) && (n <=? 222) && negb (n =? 215))%nat
  then ascii_of_nat (n + 32) else c.

(** [s.lower()] *)
Fixpoint lower (s : string) : string :=
  match s with
  | EmptyString => EmptyString
  | String c s' => String (lower_char c) (lower s')
  end.

(** [s.replace(old, new)] for a non-empty [old]: scanning from the left,
    every occurrence of [old] is replaced and the scan resumes after it.
    [skip] counts the characters of a matched occurrence still to pass. *)
Fixpoint replace_from (old new s : string) (skip : nat) : string :=
  match s with
  | EmptyString => EmptyString
  | String c s' =>
      match skip with
      | S k => replace_from old new s' k
      | O =>
          if startswith s old
          then new +:+ replace_from old new s' (String.length old - 1)
          else String c (replace_from old new s' 0)
      end
  end.

(** With an empty [old], [new] is inserted before every character and at
    the end. *)
Fixpoint intersperse (new s : string) : string :=
  match s with
  | EmptyString => new
  | String c s' => new +:+ String c (intersperse new s')
  end.

(** [s.replace(old, new)] *)
Definition replace (s old new : string) : string :=
  match old with
  | EmptyString => intersperse new s
  | String _ _ => replace_from old new s 0
  end.

End Py.

(** ** The chunker *)

(** [get_excerpts(content, n=2000, overlap=200)] *)
Definition get_excerpts (content : string) (n overlap : Z)
  : result (list string) :=
  let step := n - overlap in
  match Py.range 0 (Z.of_nat (String.length content)) step with
  | Ok starts => Ok (map (fun i => Py.slice content i (i + n)) starts)
  | Raise e => Raise e
  end.

(** ** The knowledge graph *)

(** A [networkx.DiGraph] whose nodes are strings and whose attributes are
    strings: the attribute dictionary of every node, the attribute
    dictionary of every edge, keyed by its (source, target) pair, and the
    graph-level dictionary [graph.graph]. *)
Record DiGraph : Type := mkDiGraph {
  nodes : gmap string (gmap string string);
  edges : gmap (string * string) (gmap string string);
  graph_attrs : gmap string string
}.

(** [nx.DiGraph()] *)
Definition empty_graph : DiGraph := mkDiGraph ∅ ∅ ∅.

(** [dict.update]: the keys of [attr] override those already present. *)
Definition dict_update (old attr : gmap string string) : gmap string string :=
  attr ∪ old.

(** [graph.add_node(name, **attr)]: a new node gets [attr]; the attribute
    dictionary of an existing node is updated with [attr]. *)
Definition add_node (graph : DiGraph) (name : string)
    (attr : gmap string string) : DiGraph :=
  mkDiGraph
    (<[name := dict_update (default ∅ (nodes graph !! name)) attr]> (nodes graph))
    (edges graph)
    (graph_attrs graph).

(** [graph.add_edge(u, v, **attr)]: missing endpoints are created without
    attributes; the attribute dictionary of the edge, empty when the edge
    is new, is updated with [attr]. *)
Definition add_edge (graph : DiGraph) (u v : string)
    (attr : gmap string string) : DiGraph :=
  let graph_u := add_node graph u ∅ in
  let graph_uv := add_node graph_u v ∅ in
  mkDiGraph
    (nodes graph_uv)
    (<[(u, v) := dict_update (default ∅ (edges graph !! (u, v))) attr]> (edges graph))
    (graph_attrs graph).

(** [graph.graph[key] = value] *)
Definition set_graph_attr (graph : DiGraph) (key value : string) : DiGraph :=
  mkDiGraph (nodes graph) (edges graph) (<[key := value]> (graph_attrs graph)).

(** The file [KG_DB], as [os.path.exists] and [nx.read_graphml] find it:
    absent, present but rejected by [nx.read_graphml] (the call raises),
    or read by [nx.read_graphml] as [graph]. *)
Inductive KgFile : Type :=
  | NoFile
  | Unreadable
  | Stored (graph : DiGraph).

(** The graph [extract_entities] starts from: the stored one, or an empty
    directed graph when there is no file or reading it fails. *)
Definition load_graph (file : KgFile) : DiGraph :=
  match file with
  | Stored graph => graph
  | NoFile | Unreadable => empty_graph
  end.

(** ** Text constants of the record grammar *)

Definition dquote : string := String "034"%char EmptyString.
Definition newline : string := String "010"%char EmptyString.

(** A Python literal such as ['"entity"']: the text between double quotes. *)
Definition quoted (s : string) : string := dquote +:+ s +:+ dquote.

Definition COMPLETE_MARKER : string := "<|COMPLETE|>".
Definition RECORD_DELIMITER : string := "+|+".
Definition FIELD_DELIMITER : string := "<|>".

(** Remove the surrounding parentheses of a record, if present. *)
Definition strip_parens (record : string) : string :=
  if Py.startswith record "(" && Py.endswith record ")"
  then Py.slice record 1 (-1)
  else record.

(** The body of [for record in records] in [extract_entities], on the
    fields of one record: field 0, lower-cased, selects the action, and a
    record with too few fields, an unknown discriminator or no field at
    all changes nothing. *)
Definition apply_fields (graph : DiGraph) (fields : list string) : DiGraph :=
  match fields with
  | [] => graph
  | field0 :: _ =>
      let record_type := Py.lower field0 in
      if decide (record_type = quoted "entity") then
        match fields with
        | _ :: name :: category :: description :: _ =>
            add_node graph name
              {[ "category" := category; "description" := description ]}
        | _ => graph
        end
      else if decide (record_type = quoted "relationship") then
        match fields with
        | _ :: source :: target :: description :: keywords :: weight :: _ =>
            add_edge graph source target
              {[ "description" := description; "keywords" := keywords;
                 "weight" := weight ]}
        | _ => graph
        end
      else if decide (record_type = quoted "content_keywords") then
        match fields with
        | _ :: keywords :: _ => set_graph_attr graph "content_keywords" keywords
        | _ => graph
        end
      else graph
  end.

(** ** Notions used in the statements *)

(** [ceil(a / b)] for a positive [b]. *)
Definition ceil_div (a b : Z) : Z := (a + b - 1) / b.

(** Every node, edge and graph attribute of [g] is still in [g']. *)
Definition graph_extends (g g' : DiGraph) : Prop :=
  dom (nodes g) ⊆ dom (nodes g') /\
  dom (edges g) ⊆ dom (edges g') /\
  dom (graph_attrs g) ⊆ dom (graph_attrs g').

(** A record is dropped when it has no field, when its field count is
    below the minimum of its discriminator (4 for an entity, 6 for a
    relationship, 2 for content keywords), or when its discriminator is
    none of the three. *)
Definition dropped (fields : list string) : bool :=
  match fields with
  | [] => true
  | field0 :: _ =>
      let record_type := Py.lower field0 in
      if decide (record_type = quoted "entity")
      then (length fields <? 4)%nat
      else if decide (record_type = quoted "relationship")
      then (length fields <? 6)%nat
      else if decide (record_type = quoted "content_keywords")
      then (length fields <? 2)%nat
      else true
  end.

(** ** The helpers of the record grammar *)

(** The length of the first marker found at the start of [s]. *)
Fixpoint marker_at (s : string) (markers : list string) : option nat :=
  match markers with
  | [] => None
  | marker :: others =>
      match marker with
      | String _ _ =>
          if Py.startswith s marker then Some (String.length marker)
          else marker_at s others
      | EmptyString => marker_at s others
      end
  end.

(** The pieces of [s] between markers; [piece] holds, reversed, the
    characters of the current piece, and [skip] counts the characters of a
    marker still to pass. *)
Fixpoint split_from (markers : list string) (s : string) (skip : nat)
    (piece : string) : list string :=
  match s with
  | EmptyString => [Py.rev piece]
  | String c s' =>
      match skip with
      | S k => split_from markers s' k piece
      | O =>
          match marker_at s markers with
          | Some len => Py.rev piece :: split_from markers s' (len - 1) EmptyString
          | None => split_from markers s' 0 (String c piece)
          end
      end
  end.

(** Modelled from the spec: [split_string_by_multi_markers] of
    [app.utilities] is not part of the sources at hand. Section 4.3 has
    the model answer split on the record delimiter and every record split
    on the field delimiter: the text is cut at each occurrence of one of
    the markers, and the pieces are returned in order. *)
Definition split_at_markers (content : string) (markers : list string)
  : list string :=
  split_from markers content 0 EmptyString.

(** Modelled from the spec: [clean_str] of [app.utilities] is not part of
    the sources at hand. Section 4.3 has each record cleaned before its
    fields are split, by trimming what surrounds it; the double quotes
    that delimit a field stay, since [extract_entities] compares field 0
    with the quoted text ['"entity"']. *)
Definition trim_record (record : string) : string := Py.strip record.

(** ** Sample collaborators and inputs *)

(** The model answer of end-to-end scenario B. *)
Definition scenario_B_response : string :=
  "(" +:+ quoted "entity" +:+ "<|>" +:+ quoted "Rabbit" +:+ "<|>"
      +:+ quoted "Animal" +:+ "<|>" +:+ quoted "A small mammal" +:+ ")"
  +:+ "+|+"
  +:+ "(" +:+ quoted "entity" +:+ "<|>" +:+ quoted "Carrot" +:+ "<|>"
      +:+ quoted "Food" +:+ "<|>" +:+ quoted "A root vegetable" +:+ ")"
  +:+ "+|+"
  +:+ "(" +:+ quoted "relationship" +:+ "<|>" +:+ quoted "Rabbit" +:+ "<|>"
      +:+ quoted "Carrot" +:+ "<|>" +:+ quoted "eats" +:+ "<|>"
      +:+ quoted "diet" +:+ "<|>" +:+ quoted "0.9" +:+ ")"
  +:+ "<|COMPLETE|>".

(** The graph scenario B expects: the two entities and the edge between
    them, every attribute being the field as the model wrote it. *)
Definition scenario_B_graph : DiGraph :=
  mkDiGraph
    {[ quoted "Rabbit" := {[ "category" := quoted "Animal";
                             "description" := quoted "A small mammal" ]};
       quoted "Carrot" := {[ "category" := quoted "Food";
                             "description" := quoted "A root vegetable" ]} ]}
    {[ (quoted "Rabbit", quoted "Carrot") :=
         {[ "description" := quoted "eats"; "keywords" := quoted "diet";
            "weight" := quoted "0.9" ]} ]}
    ∅.

(** A stand-in for [make_hash]: the prefix followed by the content. *)
Definition sample_hash (content prefix : string) : string := prefix +:+ content.

(** Stand-ins for the prompt builders. *)
Definition sample_summary_prompt (full_doc excerpt : string) : string :=
  "summarise: " +:+ excerpt.
Definition sample_extract_prompt (excerpt : string) : string :=
  "extract: " +:+ excerpt.

(** A completion model that always answers with the text of scenario B,
    and one that extracts nothing. *)
Definition rabbit_completion (calls : nat) (prompt : string) : option string :=
  Some scenario_B_response.
Definition quiet_completion (calls : nat) (prompt : string) : option string :=
  Some COMPLETE_MARKER.

(** A model answer with one entity, whose name holds the control
    character U+0001. *)
Definition control_response : string :=
  "(" +:+ quoted "entity" +:+ "<|>" +:+ quoted ("A" +:+ String "001"%char "B")
      +:+ "<|>" +:+ quoted "Code" +:+ "<|>" +:+ quoted "A control sequence"
      +:+ ")"
  +:+ "<|COMPLETE|>".

(** A completion model that answers the extraction prompt of [x] with the
    text of scenario B, the extraction prompt of [y] with the entity
    above, and every other prompt with no record. *)
Definition staged_completion (calls : nat) (prompt : string) : option string :=
  if String.eqb prompt (sample_extract_prompt "x") then Some scenario_B_response
  else if String.eqb prompt (sample_extract_prompt "y") then Some control_response
  else Some COMPLETE_MARKER.

(** An embedding model that always answers, and one whose calls raise
    from the call numbered [limit] on. *)
Definition steady_embedding (calls : nat) (text : string) : option nat :=
  Some (String.length text).
Definition failing_embedding (limit calls : nat) (text : string) : option nat :=
  if (calls <? limit)%nat then Some (String.length text) else None.

(** The wall clock read as the number of calls made. *)
Definition sample_time (calls : nat) : nat := calls.

(** Similarity of two sample vectors, and the order on scores. *)
Definition sample_similarity (v query : nat) : nat := Nat.min v query.
Definition sample_score_lt (a b : nat) : bool := (a <? b)%nat.

(** A graph file written and read without loss: the file left for a
    graph is read back as that graph. *)
Definition sample_write_graphml (graph : DiGraph) : KgFile := Stored graph.

(** A graph file the reader refuses when a node name holds a character
    below U+0020 other than a tab, a line feed or a carriage return, and
    reads back as written otherwise. *)
Definition xml_char (c : ascii) : bool :=
  let code := nat_of_ascii c in
  ((32 <=? code) || (code =? 9) || (code =? 10) || (code =? 13))%nat.

Fixpoint xml_text (text : string) : bool :=
  match text with
  | EmptyString => true
  | String c rest => xml_char c && xml_text rest
  end.

Definition strict_write_graphml (graph : DiGraph) : KgFile :=
  if forallb xml_text (map_to_list (nodes graph)).*1 then Stored graph
  else Unreadable.

(** [c * n]: the character [c] repeated [n] times. *)
Fixpoint repeat_char (c : ascii) (n : nat) : string :=
  match n with
  | O => EmptyString
  | S n' => String c (repeat_char c n')
  end.

(** ** Stores, collaborators and the operations of [main.py] *)

Section MiniRag.

(** Embedding vectors, timestamps and similarity scores are opaque. *)
Context {Vector Time Score : Type}.

(** [make_hash(content, prefix)] of [app.utilities]: some function of its
    two arguments. *)
Variable make_hash : string -> string -> string.

(** The prompt builders of [app.prompts]. *)
Variable excerpt_summary_prompt : string -> string -> string.
Variable get_extract_entities_prompt : string -> string.

(** [split_string_by_multi_markers] and [clean_str] of [app.utilities]. *)
Variable split_string_by_multi_markers : string -> list string -> list string.
Variable clean_str : string -> string.

(** The model client of [app.llm] and the wall clock. Their answers may
    differ from one call to the next, so each is a function of the number
    of calls made before; [None] is a call that raises. A vector returned
    by [get_embedding] is one the index accepts. *)
Variable get_completion : nat -> string -> option string.
Variable get_embedding : nat -> string -> option Vector.
Variable time_time : nat -> Time.

(** [nx.write_graphml(graph, KG_DB)], by the file it leaves. networkx is
    not part of the program, and what it writes for a graph need not be
    read back as that graph: the reader may refuse the file, for a
    character in a name or in an attribute value, or read a value back
    changed. So the file a write leaves is some function of the graph
    written, and nothing is assumed of it. *)
Variable write_graphml : DiGraph -> KgFile.

(** The metric of the vector index and the order on its scores. *)
Variable similarity : Vector -> Vector -> Score.
Variable score_lt : Score -> Score -> bool.

(** A record of the vector index, without its [__id__] key. *)
Record VecRecord : Type := mkVecRecord {
  v_vector : Vector;
  v_doc_id : string;
  v_inserted_at : Time
}.

(** A value of the [EXCERPT_DB] mapping. *)
Record ExcerptRecord : Type := mkExcerptRecord {
  x_doc_id : string;
  x_doc_order_index : nat;
  x_excerpt : string;
  x_summary : string;
  x_indexed_at : Time
}.

(** Everything the program reads and writes: the four JSON mapping files,
    the vector index held by the process ([embeddings_db]) and its storage
    file, the graph file, and the number of collaborator calls made. *)
Record State : Type := mkState {
  source_to_doc_id_map : gmap string string;
  doc_id_to_source_map : gmap string string;
  doc_id_to_excerpt_ids : gmap string (list string);
  excerpt_db : gmap string ExcerptRecord;
  embeddings_db : gmap string VecRecord;
  embeddings_file : gmap string VecRecord;
  kg_db : KgFile;
  clock : nat
}.

(** The state [__main__] starts from: the four files hold [{}], there is
    no index file and no graph file. *)
Definition initial_state : State := mkState ∅ ∅ ∅ ∅ ∅ ∅ NoFile 0.

(** A JSON mapping file: how to read it from the state and write it back. *)
Record JsonFile (V : Type) : Type := mkJsonFile {
  contents : State -> gmap string V;
  overwrite : gmap string V -> State -> State
}.

Arguments contents {V} _ _.
Arguments overwrite {V} _ _ _.

Definition SOURCE_TO_DOC_ID_MAP : JsonFile string :=
  mkJsonFile string source_to_doc_id_map
    (fun m st => mkState m (doc_id_to_source_map st) (doc_id_to_excerpt_ids st)
                   (excerpt_db st) (embeddings_db st) (embeddings_file st)
                   (kg_db st) (clock st)).

Definition DOC_ID_TO_SOURCE_MAP : JsonFile string :=
  mkJsonFile string doc_id_to_source_map
    (fun m st => mkState (source_to_doc_id_map st) m (doc_id_to_excerpt_ids st)
                   (excerpt_db st) (embeddings_db st) (embeddings_file st)
                   (kg_db st) (clock st)).

Definition DOC_ID_TO_EXCERPT_IDS : JsonFile (list string) :=
  mkJsonFile (list string) doc_id_to_excerpt_ids
    (fun m st => mkState (source_to_doc_id_map st) (doc_id_to_source_map st) m
                   (excerpt_db st) (embeddings_db st) (embeddings_file st)
                   (kg_db st) (clock st)).

Definition EXCERPT_DB : JsonFile ExcerptRecord :=
  mkJsonFile ExcerptRecord excerpt_db
    (fun m st => mkState (source_to_doc_id_map st) (doc_id_to_source_map st)
                   (doc_id_to_excerpt_ids st) m (embeddings_db st)
                   (embeddings_file st) (kg_db st) (clock st)).

Definition set_embeddings_db (m : gmap string VecRecord) (st : State) : State :=
  mkState (source_to_doc_id_map st) (doc_id_to_source_map st)
    (doc_id_to_excerpt_ids st) (excerpt_db st) m (embeddings_file st)
    (kg_db st) (clock st).

Definition set_embeddings_file (m : gmap string VecRecord) (st : State) : State :=
  mkState (source_to_doc_id_map st) (doc_id_to_source_map st)
    (doc_id_to_excerpt_ids st) (excerpt_db st) (embeddings_db st) m
    (kg_db st) (clock st).

Definition set_kg_db (file : KgFile) (st : State) : State :=
  mkState (source_to_doc_id_map st) (doc_id_to_source_map st)
    (doc_id_to_excerpt_ids st) (excerpt_db st) (embeddings_db st)
    (embeddings_file st) file (clock st).

Definition tick (st : State) : State :=
  mkState (source_to_doc_id_map st) (doc_id_to_source_map st)
    (doc_id_to_excerpt_ids st) (excerpt_db st) (embeddings_db st)
    (embeddings_file st) (kg_db st) (S (clock st)).

(** *** Computations *)

(** A computation returns a value or raises, and leaves a state either
    way: what was written before an exception stays written. *)
Definition M (A : Type) : Type := State -> result A * State.

Definition ret {A : Type} (a : A) : M A := fun st => (Ok a, st).

Definition raise {A : Type} (e : exn) : M A := fun st => (Raise e, st).

Definition bind {A B : Type} (m : M A) (k : A -> M B) : M B :=
  fun st =>
    match m st with
    | (Ok a, st') => k a st'
    | (Raise e, st') => (Raise e, st')
    end.

Notation "'let*' x := m 'in' k" := (bind m (fun x => k))
  (at level 10, x name, m at level 100, k at level 200).
Notation "'let*' '_' := m 'in' k" := (bind m (fun _ => k))
  (at level 10, m at level 100, k at level 200).

Definition modify (f : State -> State) : M unit := fun st => (Ok tt, f st).

Definition lift {A : Type} (r : result A) : M A := fun st => (r, st).

(** [for x in xs: body(x)] *)
Fixpoint for_each {A : Type} (xs : list A) (body : A -> M unit) : M unit :=
  match xs with
  | [] => ret tt
  | x :: rest => let* _ := body x in for_each rest body
  end.

(** One call of a collaborator: it is answered according to the number of
    calls made so far, which then grows by one. *)
Definition call {A : Type} (oracle : nat -> option A) : M A :=
  fun st =>
    (match oracle (clock st) with
     | Some a => Ok a
     | None => Raise ModelCallError
     end, tick st).

Definition now : M Time := fun st => (Ok (time_time (clock st)), tick st).

(** *** The key-value files *)

(** Modelled from the spec: [get_json], [add_to_json] and
    [remove_from_json] of [app.utilities] are not part of the sources at
    hand. They are the [get], [set(key, value)] and [delete(key)] of the
    persistent key-value map store of section 6, and deleting a key that
    is absent is a no-op, as section 7 states for missing map entries. *)
Definition get_json {V : Type} (file : JsonFile V) : M (gmap string V) :=
  fun st => (Ok (contents file st), st).

Definition add_to_json {V : Type} (file : JsonFile V) (key : string) (value : V)
  : M unit :=
  modify (fun st => overwrite file (<[key := value]> (contents file st)) st).

Definition remove_from_json {V : Type} (file : JsonFile V) (key : string)
  : M unit :=
  modify (fun st => overwrite file (delete key (contents file st)) st).

(** *** The vector index *)

(** [embeddings_db.upsert([record])]: insert, or replace the record that
    has the same id. *)
Definition upsert (id : string) (record : VecRecord) : M unit :=
  modify (fun st => set_embeddings_db (<[id := record]> (embeddings_db st)) st).

(** [embeddings_db.delete(ids)]: keep the records whose id is not listed. *)
Definition delete_ids (ids : list string) : M unit :=
  modify (fun st =>
    set_embeddings_db
      (filter (fun entry => entry.1 ∉ ids) (embeddings_db st)) st).

(** [embeddings_db.save()] *)
Definition save : M unit :=
  modify (fun st => set_embeddings_file (embeddings_db st) st).

(** [NanoVectorDB(dim, storage_file=EMBEDDINGS_DB)] at the start of a
    process: the index is read back from its storage file. *)
Definition restart (st : State) : State :=
  set_embeddings_db (embeddings_file st) st.

(** Insertion of a scored record into a list sorted by decreasing score. *)
Fixpoint insert_by_score (entry : Score * (string * VecRecord))
    (sorted : list (Score * (string * VecRecord)))
  : list (Score * (string * VecRecord)) :=
  match sorted with
  | [] => [entry]
  | first :: rest =>
      if score_lt first.1 entry.1 then entry :: sorted
      else first :: insert_by_score entry rest
  end.

(** Stop at the first score below the threshold. *)
Fixpoint until_below (threshold : Score)
    (ranked : list (Score * (string * VecRecord)))
  : list (Score * (string * VecRecord)) :=
  match ranked with
  | [] => []
  | first :: rest =>
      if score_lt first.1 threshold then []
      else first :: until_below threshold rest
  end.

(** [embeddings_db.query(query, top_k, better_than_threshold)]: the
    records are ranked by decreasing similarity to [query], the first
    [top_k] are kept, and the result stops at the first score below the
    threshold. *)
Definition vector_query (query : Vector) (top_k : nat) (threshold : Score)
    (index : gmap string VecRecord) : list (Score * (string * VecRecord)) :=
  let scored :=
    map (fun entry => (similarity (v_vector entry.2) query, entry))
        (map_to_list index) in
  until_below threshold (take top_k (foldr insert_by_score [] scored)).

(** The ids a query returns. *)
Definition query_ids (query : Vector) (top_k : nat) (threshold : Score)
    (st : State) : list string :=
  map (fun hit => hit.2.1) (vector_query query top_k threshold (embeddings_db st)).

(** *** The operations *)

(** [remove_document_by_id(doc_id)] *)
Definition remove_document_by_id (doc_id : string) : M unit :=
  let* doc_id_to_excerpt_ids := get_json DOC_ID_TO_EXCERPT_IDS in
  let* doc_id_to_source_map := get_json DOC_ID_TO_SOURCE_MAP in
  let* _ :=
    match doc_id_to_source_map !! doc_id with
    | Some source =>
        let* _ := remove_from_json DOC_ID_TO_SOURCE_MAP doc_id in
        remove_from_json SOURCE_TO_DOC_ID_MAP source
    | None => ret tt
    end in
  match doc_id_to_excerpt_ids !! doc_id with
  | Some excerpt_ids =>
      let* _ := for_each excerpt_ids (remove_from_json EXCERPT_DB) in
      let* _ := remove_from_json DOC_ID_TO_EXCERPT_IDS doc_id in
      let* _ := delete_ids excerpt_ids in
      save
  | None => ret tt
  end.

(** [add_document_maps(source, content)] *)
Definition add_document_maps (source content : string) : M unit :=
  let doc_id := make_hash content "doc_" in
  let* _ := add_to_json SOURCE_TO_DOC_ID_MAP source doc_id in
  add_to_json DOC_ID_TO_SOURCE_MAP doc_id source.

(** [get_excerpt_summary(full_doc, excerpt)] *)
Definition get_excerpt_summary (full_doc excerpt : string) : M string :=
  let prompt := excerpt_summary_prompt full_doc excerpt in
  call (fun calls => get_completion calls prompt).

(** The body of the loop of [embed_document] for the excerpt at position
    [i]; it returns the id appended to [excerpt_ids]. *)
Definition embed_excerpt (content doc_id : string) (i : nat) (excerpt : string)
  : M string :=
  let excerpt_id := make_hash excerpt "excerpt_id_" in
  let* summary := get_excerpt_summary content excerpt in
  let embedding_content := excerpt +:+ newline +:+ newline +:+ summary in
  let* vector := call (fun calls => get_embedding calls embedding_content) in
  let* inserted_at := now in
  let* _ := upsert excerpt_id (mkVecRecord vector doc_id inserted_at) in
  let* indexed_at := now in
  let* _ := add_to_json EXCERPT_DB excerpt_id
              (mkExcerptRecord doc_id i excerpt summary indexed_at) in
  ret excerpt_id.

(** [for i, excerpt in enumerate(excerpts)], counting from [i]; the ids
    are returned in the order of the excerpts. *)
Fixpoint embed_loop (content doc_id : string) (i : nat) (excerpts : list string)
  : M (list string) :=
  match excerpts with
  | [] => ret []
  | excerpt :: rest =>
      let* excerpt_id := embed_excerpt content doc_id i excerpt in
      let* excerpt_ids := embed_loop content doc_id (S i) rest in
      ret (excerpt_id :: excerpt_ids)
  end.

(** [embed_document(content, doc_id)] *)
Definition embed_document (content doc_id : string) : M unit :=
  let* excerpts := lift (get_excerpts content 2000 200) in
  let* excerpt_ids := embed_loop content doc_id 0 excerpts in
  let* _ := save in
  add_to_json DOC_ID_TO_EXCERPT_IDS doc_id excerpt_ids.

(** The records of one model answer: the completion marker is removed,
    the text is trimmed and split at the record delimiter, and every
    record loses its parentheses and is cleaned. *)
Definition parse_records (result : string) : list string :=
  let data_str := Py.strip (Py.replace result COMPLETE_MARKER "") in
  let records := split_string_by_multi_markers data_str [RECORD_DELIMITER] in
  map (fun record => clean_str (strip_parens record)) records.

(** [for record in records]: the fields of each record are applied to the
    graph in turn. *)
Definition apply_records (records : list string) (graph : DiGraph) : DiGraph :=
  foldl
    (fun graph record =>
       apply_fields graph (split_string_by_multi_markers record [FIELD_DELIMITER]))
    graph records.

(** [for excerpt in excerpts] in [extract_entities]. *)
Fixpoint extract_loop (excerpts : list string) (graph : DiGraph) : M DiGraph :=
  match excerpts with
  | [] => ret graph
  | excerpt :: rest =>
      let prompt := get_extract_entities_prompt excerpt in
      let* result := call (fun calls => get_completion calls prompt) in
      extract_loop rest (apply_records (parse_records result) graph)
  end.

(** [extract_entities(content, doc_id)] *)
Definition extract_entities (content doc_id : string) : M unit :=
  let* excerpts := lift (get_excerpts content 2000 200) in
  let* file := (fun st => (Ok (kg_db st), st)) in
  let* graph := extract_loop excerpts (load_graph file) in
  modify (set_kg_db (write_graphml graph)).

(** The body of [for source in sources] in [import_documents], for a
    source and the content read from it. *)
Definition import_document (source content : string) : M unit :=
  let doc_id := make_hash content "doc_" in
  let* source_to_doc_id_map := get_json SOURCE_TO_DOC_ID_MAP in
  match source_to_doc_id_map !! source with
  | None =>
      let* _ := add_document_maps source content in
      let* _ := embed_document content doc_id in
      extract_entities content doc_id
  | Some old_doc_id =>
      if decide (old_doc_id ≠ doc_id) then
        let* _ := remove_document_by_id old_doc_id in
        let* _ := add_document_maps source content in
        let* _ := embed_document content doc_id in
        extract_entities content doc_id
      else ret tt
  end.

(** [import_documents()], given what [get_docs] and [read_file] find in
    the input directory: the sources in order, each with its content. *)
Definition import_documents (docs : list (string * string)) : M unit :=
  for_each docs (fun doc => import_document doc.1 doc.2).

(** *** Sequences of operations *)

Inductive Operation : Type :=
  | Import (docs : list (string * string))
  | Remove (doc_id : string)
  | Restart.

(** The state an operation leaves, whether it returns or raises. *)
Definition run_operation (st : State) (op : Operation) : State :=
  match op with
  | Import docs => (import_documents docs st).2
  | Remove doc_id => (remove_document_by_id doc_id st).2
  | Restart => restart st
  end.

Definition run_operations (ops : list Operation) (st : State) : State :=
  foldl run_operation st ops.

(** The documents imported by a sequence of operations. *)
Definition imported_docs (ops : list Operation) : list (string * string) :=
  ops ≫= (fun op => match op with Import docs => docs | _ => [] end).

(** *** Notions used in the statements *)

(** A computation leaves a component of the state as it found it,
    whether it returns or raises. *)
Definition unchanged {T A : Type} (proj : State -> T) (m : M A) : Prop :=
  forall st, proj (m st).2 = proj st.

(** A property of the state that every step of a computation keeps. *)
Definition preserves {A : Type} (P : State -> Prop) (m : M A) : Prop :=
  forall st, P st -> P (m st).2.

(** The excerpt ids of a list of excerpts, in order. *)
Definition excerpt_ids_of (excerpts : list string) : list string :=
  map (fun excerpt => make_hash excerpt "excerpt_id_") excerpts.

(** The three steps that both indexing branches of [import_document]
    end with. *)
Definition index_new_content (source content : string) : M unit :=
  let doc_id := make_hash content "doc_" in
  let* _ := add_document_maps source content in
  let* _ := embed_document content doc_id in
  extract_entities content doc_id.

(** Every entry of the doc-id-to-source map has its mirror entry in the
    source-to-doc-id map. *)
Definition ids_consistent (st : State) : Prop :=
  forall doc_id source,
    doc_id_to_source_map st !! doc_id = Some source ->
    source_to_doc_id_map st !! source = Some doc_id.

(** No two sources among [docs] have contents with the same hash. *)
Definition hash_identifies_source (docs : list (string * string)) : Prop :=
  forall source1 content1 source2 content2,
    (source1, content1) ∈ docs -> (source2, content2) ∈ docs ->
    make_hash content1 "doc_" = make_hash content2 "doc_" ->
    source1 = source2.

(** Every entry of the source-to-doc-id map has its mirror entry in the
    doc-id-to-source map, and its doc id is the hash of a content that
    [docs] has for the source. *)
Definition sources_recorded (docs : list (string * string)) (st : State) : Prop :=
  forall source doc_id,
    source_to_doc_id_map st !! source = Some doc_id ->
    doc_id_to_source_map st !! doc_id = Some source /\
    exists content, (source, content) ∈ docs /\ make_hash content "doc_" = doc_id.


(** The graph file [file'] holds every node, edge and graph attribute of
    the graph stored in [file], if [file] stores one. *)
Definition kg_file_extends (file file' : KgFile) : Prop :=
  forall graph,
    file = Stored graph ->
    exists graph', file' = Stored graph' /\ graph_extends graph graph'.

(** [nx.write_graphml] and [nx.read_graphml] lose nothing between them:
    the file a write leaves is read back as a graph that has every node,
    edge and graph attribute of the graph written. *)
Definition write_keeps : Prop :=
  forall graph,
    exists graph', write_graphml graph = Stored graph' /\ graph_extends graph graph'.

(** Two states that differ at most in the number of calls made. *)
Definition same_stores (st st' : State) : Prop :=
  source_to_doc_id_map st' = source_to_doc_id_map st /\
  doc_id_to_source_map st' = doc_id_to_source_map st /\
  doc_id_to_excerpt_ids st' = doc_id_to_excerpt_ids st /\
  excerpt_db st' = excerpt_db st /\
  embeddings_db st' = embeddings_db st /\
  embeddings_file st' = embeddings_file st /\
  kg_db st' = kg_db st.

(** ** Properties of the Python built-ins *)

Lemma ceil_div_bounds (a b : Z) :
  0 < b -> (ceil_div a b - 1) * b < a <= ceil_div a b * b.
Proof.
  intros Hb. unfold ceil_div.
  pose proof (Z.div_mod (a + b - 1) b ltac:(lia)) as Hdm.
  pose proof (Z.mod_pos_bound (a + b - 1) b Hb) as Hmod.
  nia.
Qed.

Lemma ceil_div_nonpos (a b : Z) : 0 < b -> a <= 0 -> ceil_div a b <= 0.
Proof.
  intros Hb Ha. pose proof (ceil_div_bounds a b Hb). nia.
Qed.

Lemma ceil_div_step (a b : Z) :
  0 < b -> ceil_div a b = 1 + ceil_div (a - b) b.
Proof.
  intros Hb. unfold ceil_div.
  replace (a + b - 1) with ((a - b + b - 1) + 1 * b) by lia.
  rewrite Z.div_add by lia. lia.
Qed.

Lemma ceil_div_pos (a b : Z) : 0 < b -> 0 < a -> 0 < ceil_div a b.
Proof.
  intros Hb Ha. pose proof (ceil_div_bounds a b Hb). nia.
Qed.

(** The loop of [range] with a positive step visits [i], [i + step], ...
    and stops after [ceil((stop - i) / step)] values; the bound on the
    number of iterations is never what stops it. *)
Lemma range_up_values (step stop : Z) (fuel : nat) (i : Z) :
  0 < step ->
  stop - i <= Z.of_nat fuel ->
  Py.range_up fuel i stop step =
  map (fun k : nat => i + Z.of_nat k * step)
      (seq 0 (Z.to_nat (ceil_div (stop - i) step))).
Proof.
  intros Hstep. revert i.
  induction fuel as [|fuel IH]; intros i Hfuel.
  - pose proof (ceil_div_nonpos (stop - i) step Hstep ltac:(lia)).
    replace (Z.to_nat (ceil_div (stop - i) step)) with 0%nat by lia.
    reflexivity.
  - cbn [Py.range_up]. destruct (Z.ltb_spec i stop) as [Hlt|Hge].
    + rewrite (ceil_div_step (stop - i) step Hstep).
      pose proof (ceil_div_bounds (stop - i - step) step Hstep) as Hb.
      assert (0 <= ceil_div (stop - i - step) step) by nia.
      rewrite Z2Nat.inj_add by lia.
      change (Z.to_nat 1) with 1%nat. cbn [Nat.add seq map].
      f_equal; [lia|].
      rewrite IH by lia.
      replace (stop - (i + step)) with (stop - i - step) by lia.
      rewrite <- fmap_S_seq, <- list_fmap_compose.
      apply list_fmap_ext. intros _ k _. cbn. lia.
    + pose proof (ceil_div_nonpos (stop - i) step Hstep ltac:(lia)).
      replace (Z.to_nat (ceil_div (stop - i) step)) with 0%nat by lia.
      reflexivity.
Qed.

(** With a negative step and a start that is not above the stop, the
    loop of [range] has nothing to visit. *)
Lemma range_down_empty (step stop : Z) (fuel : nat) (i : Z) :
  i <= stop -> Py.range_down fuel i stop step = [].
Proof.
  intros Hle. destruct fuel as [|fuel]; [reflexivity|].
  cbn [Py.range_down]. destruct (Z.ltb_spec stop i); [lia | reflexivity].
Qed.

Lemma substring_length (s : string) (start count : nat) :
  String.length (String.substring start count s) =
  Nat.min count (String.length s - start).
Proof.
  revert start count.
  induction s as [|c s IH]; intros [|start] [|count]; cbn; try reflexivity.
  - rewrite IH. f_equal. lia.
  - apply IH.
  - rewrite IH. reflexivity.
Qed.

Lemma substring_all (s : string) (count : nat) :
  (String.length s <= count)%nat -> String.substring 0 count s = s.
Proof.
  revert count.
  induction s as [|c s IH]; intros [|count] Hlen; cbn in *; try reflexivity.
  - lia.
  - f_equal. apply IH. lia.
Qed.

Lemma substring_clamp (s : string) (start count : nat) :
  String.substring start count s =
  String.substring start (Nat.min count (String.length s - start)) s.
Proof.
  revert start count.
  induction s as [|c s IH]; intros [|start] [|count]; cbn; try reflexivity.
  - f_equal. rewrite (IH 0%nat count). do 2 f_equal. lia.
  - apply IH.
Qed.

(** A slice with bounds [0 <= lo] and [0 <= hi - lo] is the substring
    that starts at [lo] and has up to [hi - lo] characters. *)
Lemma slice_window (s : string) (lo count : Z) :
  0 <= lo -> 0 <= count ->
  lo <= Z.of_nat (String.length s) ->
  Py.slice s lo (lo + count) =
  String.substring (Z.to_nat lo) (Z.to_nat count) s.
Proof.
  intros Hlo Hcount Hin. unfold Py.slice, Py.slice_index.
  set (len := Z.of_nat (String.length s)) in *.
  destruct (Z.ltb_spec lo 0) as [?|_]; [lia|].
  destruct (Z.ltb_spec (lo + count) 0) as [?|_]; [lia|].
  rewrite (Z.min_l lo len) by lia.
  destruct (Z.le_ge_cases (lo + count) len) as [Hfit|Hover].
  - rewrite Z.min_l by lia. f_equal; lia.
  - rewrite Z.min_r by lia.
    rewrite (substring_clamp s (Z.to_nat lo) (Z.to_nat count)).
    f_equal. unfold len in *. lia.
Qed.

(** ** The chunker: windows, their number and their lengths *)

Lemma get_excerpts_windows (content : string) (n overlap : Z) :
  overlap < n ->
  get_excerpts content n overlap =
  Ok (map (fun k : nat =>
             Py.slice content (Z.of_nat k * (n - overlap))
                              (Z.of_nat k * (n - overlap) + n))
          (seq 0 (Z.to_nat (ceil_div (Z.of_nat (String.length content))
                                     (n - overlap))))).
Proof.
  intros Hstep. unfold get_excerpts, Py.range.
  destruct (Z.eqb_spec (n - overlap) 0) as [?|_]; [lia|].
  destruct (Z.ltb_spec 0 (n - overlap)) as [Hpos|?]; [|lia].
  rewrite range_up_values by lia.
  rewrite Z.sub_0_r, <- list_fmap_compose. reflexivity.
Qed.

(** A content of at most one step is a single excerpt: itself. *)
Lemma get_excerpts_single (content : string) :
  (0 < String.length content <= 1800)%nat ->
  get_excerpts content 2000 200 = Ok [content].
Proof.
  intros [Hpos Hlen]. rewrite get_excerpts_windows by lia.
  change (2000 - 200) with 1800.
  set (len := Z.of_nat (String.length content)).
  assert (Hone : ceil_div len 1800 = 1).
  { pose proof (ceil_div_bounds len 1800 ltac:(lia)). lia. }
  rewrite Hone. change (Z.to_nat 1) with 1%nat. cbn [seq map].
  do 2 f_equal.
  etransitivity; [apply (slice_window content 0 2000); lia|].
  apply substring_all. cbn. lia.
Qed.

(** The default parameters never make [get_excerpts] raise. *)
Lemma get_excerpts_default_ok (content : string) :
  exists excerpts, get_excerpts content 2000 200 = Ok excerpts.
Proof. eexists. apply get_excerpts_windows. lia. Qed.

(** ** Reasoning about computations *)

Lemma unchanged_ret {T A : Type} (proj : State -> T) (a : A) :
  unchanged proj (ret a).
Proof. intros st. reflexivity. Qed.

Lemma unchanged_lift {T A : Type} (proj : State -> T) (r : result A) :
  unchanged proj (lift r).
Proof. intros st. reflexivity. Qed.

Lemma unchanged_bind {T A B : Type} (proj : State -> T) (m : M A) (k : A -> M B) :
  unchanged proj m -> (forall a, unchanged proj (k a)) ->
  unchanged proj (bind m k).
Proof.
  intros Hm Hk st. unfold bind. specialize (Hm st).
  destruct (m st) as [[a|e] st']; cbn in *.
  - rewrite Hk. exact Hm.
  - exact Hm.
Qed.

Lemma unchanged_modify {T : Type} (proj : State -> T) (f : State -> State) :
  (forall st, proj (f st) = proj st) -> unchanged proj (modify f).
Proof. intros Hf st. apply Hf. Qed.

Lemma unchanged_call {T A : Type} (proj : State -> T) (oracle : nat -> option A) :
  (forall st, proj (tick st) = proj st) -> unchanged proj (call oracle).
Proof. intros Htick st. apply Htick. Qed.

Lemma unchanged_now {T : Type} (proj : State -> T) :
  (forall st, proj (tick st) = proj st) -> unchanged proj now.
Proof. intros Htick st. apply Htick. Qed.

Lemma unchanged_for_each {T A : Type} (proj : State -> T) (xs : list A)
    (body : A -> M unit) :
  (forall x, unchanged proj (body x)) -> unchanged proj (for_each xs body).
Proof.
  intros Hbody. induction xs as [|x xs IH]; cbn [for_each].
  - apply unchanged_ret.
  - apply unchanged_bind; [apply Hbody | intros _; exact IH].
Qed.

Lemma preserves_bind {A B : Type} (P : State -> Prop) (m : M A) (k : A -> M B) :
  preserves P m -> (forall a, preserves P (k a)) -> preserves P (bind m k).
Proof.
  intros Hm Hk st HP. unfold bind. specialize (Hm st HP).
  destruct (m st) as [[a|e] st']; cbn in *.
  - apply Hk. exact Hm.
  - exact Hm.
Qed.

Lemma preserves_for_each {A : Type} (P : State -> Prop) (xs : list A)
    (body : A -> M unit) :
  (forall x, x ∈ xs -> preserves P (body x)) -> preserves P (for_each xs body).
Proof.
  induction xs as [|x xs IH]; intros Hbody; cbn [for_each].
  - intros st HP. exact HP.
  - apply preserves_bind.
    + apply Hbody. left.
    + intros _. apply IH. intros y Hy. apply Hbody. right. exact Hy.
Qed.

(** *** What each operation leaves alone *)

Lemma embed_excerpt_unchanged {T : Type} (proj : State -> T)
    (content doc_id : string) (i : nat) (excerpt : string) :
  (forall st, proj (tick st) = proj st) ->
  (forall m st, proj (set_embeddings_db m st) = proj st) ->
  (forall m st, proj (overwrite EXCERPT_DB m st) = proj st) ->
  unchanged proj (embed_excerpt content doc_id i excerpt).
Proof.
  intros Htick Hdb Hexc. unfold embed_excerpt, get_excerpt_summary.
  apply unchanged_bind; [by apply unchanged_call | intros summary].
  apply unchanged_bind; [by apply unchanged_call | intros vector].
  apply unchanged_bind; [by apply unchanged_now | intros inserted_at].
  apply unchanged_bind; [apply unchanged_modify; intros st; apply Hdb | intros _].
  apply unchanged_bind; [by apply unchanged_now | intros indexed_at].
  apply unchanged_bind; [apply unchanged_modify; intros st; apply Hexc | intros _].
  apply unchanged_ret.
Qed.

Lemma embed_loop_unchanged {T : Type} (proj : State -> T)
    (content doc_id : string) (excerpts : list string) (i : nat) :
  (forall st, proj (tick st) = proj st) ->
  (forall m st, proj (set_embeddings_db m st) = proj st) ->
  (forall m st, proj (overwrite EXCERPT_DB m st) = proj st) ->
  unchanged proj (embed_loop content doc_id i excerpts).
Proof.
  intros Htick Hdb Hexc. revert i.
  induction excerpts as [|excerpt rest IH]; intros i; cbn [embed_loop].
  - apply unchanged_ret.
  - apply unchanged_bind; [by apply embed_excerpt_unchanged | intros excerpt_id].
    apply unchanged_bind; [apply IH | intros excerpt_ids].
    apply unchanged_ret.
Qed.

(** [embed_document] writes the excerpt records, the vector index and its
    file, and the doc-to-excerpt-ids file, and nothing else. *)
Lemma embed_document_unchanged {T : Type} (proj : State -> T)
    (content doc_id : string) :
  (forall st, proj (tick st) = proj st) ->
  (forall m st, proj (set_embeddings_db m st) = proj st) ->
  (forall m st, proj (set_embeddings_file m st) = proj st) ->
  (forall m st, proj (overwrite EXCERPT_DB m st) = proj st) ->
  (forall m st, proj (overwrite DOC_ID_TO_EXCERPT_IDS m st) = proj st) ->
  unchanged proj (embed_document content doc_id).
Proof.
  intros Htick Hdb Hfile Hexc Hids. unfold embed_document.
  apply unchanged_bind; [apply unchanged_lift | intros excerpts].
  apply unchanged_bind; [by apply embed_loop_unchanged | intros excerpt_ids].
  apply unchanged_bind; [apply unchanged_modify; intros st; apply Hfile | intros _].
  apply unchanged_modify. intros st. apply Hids.
Qed.

Lemma extract_loop_unchanged {T : Type} (proj : State -> T)
    (excerpts : list string) (graph : DiGraph) :
  (forall st, proj (tick st) = proj st) ->
  unchanged proj (extract_loop excerpts graph).
Proof.
  intros Htick. revert graph.
  induction excerpts as [|excerpt rest IH]; intros graph; cbn [extract_loop].
  - apply unchanged_ret.
  - apply unchanged_bind; [by apply unchanged_call | intros result]. apply IH.
Qed.

(** [extract_entities] writes the graph file and nothing else. *)
Lemma extract_entities_unchanged {T : Type} (proj : State -> T)
    (content doc_id : string) :
  (forall st, proj (tick st) = proj st) ->
  (forall file st, proj (set_kg_db file st) = proj st) ->
  unchanged proj (extract_entities content doc_id).
Proof.
  intros Htick Hkg. unfold extract_entities.
  apply unchanged_bind; [apply unchanged_lift | intros excerpts].
  apply unchanged_bind; [intros st; reflexivity | intros file].
  apply unchanged_bind; [by apply extract_loop_unchanged | intros graph].
  apply unchanged_modify. intros st. apply Hkg.
Qed.

(** [add_document_maps] writes the two id maps and nothing else. *)
Lemma add_document_maps_unchanged {T : Type} (proj : State -> T)
    (source content : string) :
  (forall m st, proj (overwrite SOURCE_TO_DOC_ID_MAP m st) = proj st) ->
  (forall m st, proj (overwrite DOC_ID_TO_SOURCE_MAP m st) = proj st) ->
  unchanged proj (add_document_maps source content).
Proof.
  intros Hs Hd. unfold add_document_maps.
  apply unchanged_bind; [apply unchanged_modify; intros st; apply Hs | intros _].
  apply unchanged_modify. intros st. apply Hd.
Qed.

(** ** Removal of a document *)

Lemma lookup_foldl_delete {V : Type} (ids : list string) (m : gmap string V)
    (key : string) :
  foldl (fun m id => delete id m) m ids !! key =
  if decide (key ∈ ids) then None else m !! key.
Proof.
  revert m. induction ids as [|id ids IH]; intros m; cbn [foldl].
  - rewrite decide_False; [reflexivity | apply not_elem_of_nil].
  - rewrite IH. destruct (decide (key ∈ ids)) as [Hin|Hnotin].
    + rewrite decide_True; [reflexivity | by right].
    + destruct (decide (id = key)) as [->|Hne].
      * rewrite lookup_delete_eq, decide_True; [reflexivity | by left].
      * rewrite lookup_delete_ne by done.
        rewrite decide_False; [reflexivity|].
        intros Hin. apply elem_of_cons in Hin as [->|Hin]; done.
Qed.

Lemma for_each_remove_excerpts (ids : list string) (st : State) :
  for_each ids (remove_from_json EXCERPT_DB) st =
  (Ok tt, overwrite EXCERPT_DB (foldl (fun m id => delete id m) (excerpt_db st) ids) st).
Proof.
  revert st. induction ids as [|id ids IH]; intros st; cbn [for_each foldl].
  - destruct st; reflexivity.
  - unfold bind. cbn. rewrite IH. reflexivity.
Qed.

(** What [remove_document_by_id] leaves in every store. *)
Lemma remove_document_by_id_run (doc_id : string) (st : State) :
  let st' := (remove_document_by_id doc_id st).2 in
  (remove_document_by_id doc_id st).1 = Ok tt /\
  source_to_doc_id_map st' =
    match doc_id_to_source_map st !! doc_id with
    | Some source => delete source (source_to_doc_id_map st)
    | None => source_to_doc_id_map st
    end /\
  doc_id_to_source_map st' = delete doc_id (doc_id_to_source_map st) /\
  doc_id_to_excerpt_ids st' = delete doc_id (doc_id_to_excerpt_ids st) /\
  excerpt_db st' =
    foldl (fun m id => delete id m) (excerpt_db st)
          (default [] (doc_id_to_excerpt_ids st !! doc_id)) /\
  embeddings_db st' =
    match doc_id_to_excerpt_ids st !! doc_id with
    | Some excerpt_ids =>
        filter (fun entry => entry.1 ∉ excerpt_ids) (embeddings_db st)
    | None => embeddings_db st
    end /\
  embeddings_file st' =
    match doc_id_to_excerpt_ids st !! doc_id with
    | Some excerpt_ids =>
        filter (fun entry => entry.1 ∉ excerpt_ids) (embeddings_db st)
    | None => embeddings_file st
    end /\
  kg_db st' = kg_db st /\
  clock st' = clock st.
Proof.
  unfold remove_document_by_id, bind, get_json. cbn.
  destruct (doc_id_to_source_map st !! doc_id) as [source|] eqn:Hsource;
    destruct (doc_id_to_excerpt_ids st !! doc_id) as [excerpt_ids|] eqn:Hids;
    cbn; rewrite ?for_each_remove_excerpts; cbn;
    rewrite ?(delete_id _ _ Hsource), ?(delete_id _ _ Hids);
    repeat split; reflexivity.
Qed.

Lemma remove_document_by_id_ok (doc_id : string) (st : State) :
  remove_document_by_id doc_id st = (Ok tt, (remove_document_by_id doc_id st).2).
Proof.
  pose proof (remove_document_by_id_run doc_id st) as [Hok _].
  destruct (remove_document_by_id doc_id st) as [r st']. cbn in *. by subst.
Qed.

(** *** Vector queries return stored records only *)

Lemma elem_of_insert_by_score (entry x : Score * (string * VecRecord))
    (sorted : list (Score * (string * VecRecord))) :
  x ∈ insert_by_score entry sorted -> x = entry \/ x ∈ sorted.
Proof.
  induction sorted as [|first rest IH]; cbn [insert_by_score].
  - intros Hx. apply list_elem_of_singleton in Hx. by left.
  - destruct (score_lt first.1 entry.1).
    + intros Hx. apply elem_of_cons in Hx. exact Hx.
    + intros Hx. apply elem_of_cons in Hx as [->|Hx].
      * right. left.
      * destruct (IH Hx) as [->|Hin]; [by left | right; by right].
Qed.

Lemma elem_of_ranked (x : Score * (string * VecRecord))
    (scored : list (Score * (string * VecRecord))) :
  x ∈ foldr insert_by_score [] scored -> x ∈ scored.
Proof.
  induction scored as [|entry scored IH]; cbn [foldr]; [done|].
  intros Hx. apply elem_of_insert_by_score in Hx as [->|Hx].
  - left.
  - right. by apply IH.
Qed.

Lemma elem_of_until_below (threshold : Score) (x : Score * (string * VecRecord))
    (ranked : list (Score * (string * VecRecord))) :
  x ∈ until_below threshold ranked -> x ∈ ranked.
Proof.
  induction ranked as [|first rest IH]; cbn [until_below]; [done|].
  destruct (score_lt first.1 threshold).
  - intros Hx. by apply elem_of_nil in Hx.
  - intros Hx. apply elem_of_cons in Hx as [->|Hx]; [left | right; by apply IH].
Qed.

(** An id returned by a query is the id of a record of the index. *)
Lemma query_ids_stored (query : Vector) (top_k : nat) (threshold : Score)
    (st : State) (id : string) :
  id ∈ query_ids query top_k threshold st -> is_Some (embeddings_db st !! id).
Proof.
  unfold query_ids, vector_query. intros Hid.
  apply list_elem_of_fmap in Hid as [hit [-> Hhit]].
  apply elem_of_until_below in Hhit.
  apply (subseteq_take top_k) in Hhit.
  apply elem_of_ranked in Hhit.
  apply list_elem_of_fmap in Hhit as [[key record] [-> Hentry]].
  apply elem_of_map_to_list in Hentry. cbn. by exists record.
Qed.

(** The entries [remove_document_by_id] deletes. *)
Lemma remove_document_by_id_removes (doc_id : string) (st : State) :
  let st' := (remove_document_by_id doc_id st).2 in
  doc_id_to_source_map st' !! doc_id = None /\
  doc_id_to_excerpt_ids st' !! doc_id = None /\
  (forall source,
     doc_id_to_source_map st !! doc_id = Some source ->
     source_to_doc_id_map st' !! source = None) /\
  (forall excerpt_ids excerpt_id,
     doc_id_to_excerpt_ids st !! doc_id = Some excerpt_ids ->
     excerpt_id ∈ excerpt_ids ->
     excerpt_db st' !! excerpt_id = None /\
     embeddings_db st' !! excerpt_id = None).
Proof.
  intros st'.
  destruct (remove_document_by_id_run doc_id st)
    as (_ & Hs2d & Hd2s & Hd2e & Hexc & Hdb & _).
  fold st' in Hs2d, Hd2s, Hd2e, Hexc, Hdb.
  split; [rewrite Hd2s; apply lookup_delete_eq|].
  split; [rewrite Hd2e; apply lookup_delete_eq|].
  split.
  - intros source Hsource. rewrite Hs2d, Hsource. apply lookup_delete_eq.
  - intros excerpt_ids excerpt_id Hids Hin. split.
    + rewrite Hexc, Hids. cbn. rewrite lookup_foldl_delete.
      by rewrite decide_True.
    + rewrite Hdb, Hids. apply map_lookup_filter_None. right.
      intros record _ Hnot. cbn in Hnot. done.
Qed.

(** C3, amended. [remove_document_by_id] returns without raising for
    every doc id and every state. Afterwards the doc id has no entry in
    the doc-id-to-source and doc-id-to-excerpt-ids maps, the source
    recorded for it has no entry in the source-to-doc-id map, and every
    excerpt id that was listed for it has neither an excerpt record nor a
    record in the vector index or in the index file, so that no vector
    query returns it, in this process or after a restart. When the doc id
    listed excerpt ids the index has been saved; when the doc id had no
    entry in a map, the stores behind that entry are left as they were.
    The source-to-doc-id map is searched by the recorded source only: it
    is when the doc id was the value of no other source that no source
    maps to it any more. *)
Theorem remove_document_by_id_correct (doc_id : string) (st : State) :
  let st' := (remove_document_by_id doc_id st).2 in
  (remove_document_by_id doc_id st).1 = Ok tt /\
  doc_id_to_source_map st' !! doc_id = None /\
  doc_id_to_excerpt_ids st' !! doc_id = None /\
  (forall source,
     doc_id_to_source_map st !! doc_id = Some source ->
     source_to_doc_id_map st' !! source = None) /\
  (forall excerpt_ids excerpt_id,
     doc_id_to_excerpt_ids st !! doc_id = Some excerpt_ids ->
     excerpt_id ∈ excerpt_ids ->
     excerpt_db st' !! excerpt_id = None /\
     embeddings_db st' !! excerpt_id = None /\
     embeddings_file st' !! excerpt_id = None /\
     forall query top_k threshold,
       (excerpt_id ∉ query_ids query top_k threshold st') /\
       (excerpt_id ∉ query_ids query top_k threshold (restart st'))) /\
  (is_Some (doc_id_to_excerpt_ids st !! doc_id) ->
     embeddings_file st' = embeddings_db st') /\
  (doc_id_to_source_map st !! doc_id = None ->
     source_to_doc_id_map st' = source_to_doc_id_map st /\
     doc_id_to_source_map st' = doc_id_to_source_map st) /\
  (doc_id_to_excerpt_ids st !! doc_id = None ->
     doc_id_to_excerpt_ids st' = doc_id_to_excerpt_ids st /\
     excerpt_db st' = excerpt_db st /\
     embeddings_db st' = embeddings_db st /\
     embeddings_file st' = embeddings_file st) /\
  ((forall source,
      source_to_doc_id_map st !! source = Some doc_id ->
      doc_id_to_source_map st !! doc_id = Some source) ->
   forall source, source_to_doc_id_map st' !! source <> Some doc_id).
Proof.
  intros st'.
  destruct (remove_document_by_id_run doc_id st)
    as (Hok & Hs2d & Hd2s & Hd2e & Hexc & Hdb & Hfile & _ & _).
  destruct (remove_document_by_id_removes doc_id st)
    as (Hno_source & Hno_ids & Hfreed & Hgone).
  fold st' in Hs2d, Hd2s, Hd2e, Hexc, Hdb, Hfile, Hno_source, Hno_ids, Hfreed, Hgone.
  split; [exact Hok|].
  split; [exact Hno_source|]. split; [exact Hno_ids|]. split; [exact Hfreed|].
  split.
  { intros excerpt_ids excerpt_id Hids Hin.
    destruct (Hgone excerpt_ids excerpt_id Hids Hin) as [Hrecord Hvector].
    assert (Hsaved : embeddings_file st' !! excerpt_id = None).
    { rewrite Hfile, Hids. rewrite Hdb, Hids in Hvector. exact Hvector. }
    split; [exact Hrecord|]. split; [exact Hvector|]. split; [exact Hsaved|].
    intros query top_k threshold. split; intros Hhit;
      apply query_ids_stored in Hhit as [record Hrecord']; cbn in Hrecord';
      congruence. }
  split.
  { intros [excerpt_ids Hids]. by rewrite Hfile, Hdb, Hids. }
  split.
  { intros Hnone. rewrite Hs2d, Hd2s, Hnone. split; [reflexivity|].
    by apply delete_id. }
  split.
  { intros Hnone. rewrite Hd2e, Hexc, Hdb, Hfile, Hnone. cbn.
    split; [by apply delete_id | done]. }
  intros Hinj source Hsource. rewrite Hs2d in Hsource.
  destruct (doc_id_to_source_map st !! doc_id) as [recorded|] eqn:Hrecorded.
  - destruct (decide (recorded = source)) as [->|Hne].
    + by rewrite lookup_delete_eq in Hsource.
    + rewrite lookup_delete_ne in Hsource by done.
      apply Hinj in Hsource. congruence.
  - apply Hinj in Hsource. congruence.
Qed.

(** ** The embedding leg *)

Lemma bind_ok_inv {A B : Type} (m : M A) (k : A -> M B) (st st' : State) (b : B) :
  bind m k st = (Ok b, st') ->
  exists a st1, m st = (Ok a, st1) /\ k a st1 = (Ok b, st').
Proof.
  unfold bind. destruct (m st) as [[a|e] st1]; [|discriminate].
  intros Hk. by exists a, st1.
Qed.

(** One turn of the loop of [embed_document]: the summary call, then the
    embedding call, then the two writes. Nothing is written when one of
    the calls raises. *)
Lemma embed_excerpt_run (content doc_id : string) (i : nat) (excerpt : string)
    (st : State) :
  embed_excerpt content doc_id i excerpt st =
  match get_completion (clock st) (excerpt_summary_prompt content excerpt) with
  | None => (Raise ModelCallError, tick st)
  | Some summary =>
      match get_embedding (S (clock st))
              (excerpt +:+ newline +:+ newline +:+ summary) with
      | None => (Raise ModelCallError, tick (tick st))
      | Some vector =>
          let excerpt_id := make_hash excerpt "excerpt_id_" in
          (Ok excerpt_id,
           mkState (source_to_doc_id_map st) (doc_id_to_source_map st)
             (doc_id_to_excerpt_ids st)
             (<[excerpt_id := mkExcerptRecord doc_id i excerpt summary
                                (time_time (S (S (S (clock st)))))]>
                (excerpt_db st))
             (<[excerpt_id := mkVecRecord vector doc_id
                                (time_time (S (S (clock st))))]>
                (embeddings_db st))
             (embeddings_file st) (kg_db st) (S (S (S (S (clock st))))))
      end
  end.
Proof.
  unfold embed_excerpt, get_excerpt_summary, bind, call. cbn.
  destruct (get_completion _ _) as [summary|]; [|reflexivity]. cbn.
  destruct (get_embedding _ _) as [vector|]; reflexivity.
Qed.

(** What a completed run of the loop has written: an excerpt record and
    a vector record, both tagged with the doc id, under the id of every
    excerpt, and nothing under any other key. *)
Lemma embed_loop_ok (content doc_id : string) (excerpts : list string) (i : nat)
    (st st' : State) (ids : list string) :
  embed_loop content doc_id i excerpts st = (Ok ids, st') ->
  ids = excerpt_ids_of excerpts /\
  (forall id, id ∈ ids ->
     (exists record, excerpt_db st' !! id = Some record /\ x_doc_id record = doc_id) /\
     (exists record, embeddings_db st' !! id = Some record /\ v_doc_id record = doc_id)) /\
  (forall key, key ∉ ids ->
     excerpt_db st' !! key = excerpt_db st !! key /\
     embeddings_db st' !! key = embeddings_db st !! key).
Proof.
  revert i st st' ids.
  induction excerpts as [|excerpt rest IH]; intros i st st' ids Hrun;
    cbn [embed_loop] in Hrun.
  - injection Hrun as <- <-. split; [reflexivity|]. split; [|done].
    intros id Hid. by apply elem_of_nil in Hid.
  - apply bind_ok_inv in Hrun as (excerpt_id & st1 & Hstep & Hrun).
    apply bind_ok_inv in Hrun as (rest_ids & st2 & Hrest & Hret).
    injection Hret as <- <-.
    rewrite embed_excerpt_run in Hstep.
    destruct (get_completion _ _) as [summary|]; [|discriminate].
    destruct (get_embedding _ _) as [vector|]; [|discriminate].
    cbn zeta in Hstep. injection Hstep as <- <-.
    apply IH in Hrest as (-> & Htagged & Hother). cbn in Hother.
    split; [reflexivity|]. split.
    + intros id Hid.
      destruct (decide (id ∈ excerpt_ids_of rest)) as [Hin|Hnotin];
        [by apply Htagged|].
      apply elem_of_cons in Hid as [->|Hid]; [|done].
      destruct (Hother _ Hnotin) as [-> ->].
      rewrite !lookup_insert_eq. split; eexists; (split; [reflexivity|]); done.
    + intros key Hkey. apply not_elem_of_cons in Hkey as [Hne Hnotin].
      destruct (Hother _ Hnotin) as [-> ->].
      by rewrite !lookup_insert_ne.
Qed.

(** When every model call answers, the loop completes. *)
Lemma embed_loop_succeeds (content doc_id : string) (excerpts : list string)
    (i : nat) (st : State) :
  (forall calls prompt, is_Some (get_completion calls prompt)) ->
  (forall calls text, is_Some (get_embedding calls text)) ->
  exists ids st', embed_loop content doc_id i excerpts st = (Ok ids, st').
Proof.
  intros Hcompletion Hembedding. revert i st.
  induction excerpts as [|excerpt rest IH]; intros i st; cbn [embed_loop].
  - by eexists _, _.
  - unfold bind at 1. rewrite embed_excerpt_run.
    destruct (Hcompletion (clock st) (excerpt_summary_prompt content excerpt))
      as [summary ->].
    destruct (Hembedding (S (clock st))
                (excerpt +:+ newline +:+ newline +:+ summary)) as [vector ->].
    cbn zeta. cbn iota. unfold bind.
    match goal with
    | |- context [embed_loop content doc_id (S i) rest ?st1] =>
        destruct (IH (S i) st1) as (ids & st' & ->)
    end.
    by eexists _, _.
Qed.

(** The loop over [before ++ excerpt :: after] stops where the turn for
    [excerpt] raises, in the state that turn leaves. *)
Lemma embed_loop_raise (content doc_id : string) (before after : list string)
    (excerpt : string) (i : nat) (st st_k st' : State) (ids : list string)
    (e : exn) :
  embed_loop content doc_id i before st = (Ok ids, st_k) ->
  embed_excerpt content doc_id (i + length before) excerpt st_k = (Raise e, st') ->
  embed_loop content doc_id i (before ++ excerpt :: after) st = (Raise e, st').
Proof.
  revert i st ids.
  induction before as [|first before IH]; intros i st ids Hbefore Hraise;
    cbn [embed_loop app] in *.
  - injection Hbefore as <- <-. rewrite Nat.add_0_r in Hraise.
    unfold bind at 1. by rewrite Hraise.
  - apply bind_ok_inv in Hbefore as (first_id & st1 & Hfirst & Hbefore).
    apply bind_ok_inv in Hbefore as (rest_ids & st2 & Hrest & Hret).
    injection Hret as <- <-.
    unfold bind at 1. rewrite Hfirst. unfold bind at 1.
    erewrite IH; [reflexivity | exact Hrest |].
    cbn [length] in Hraise. by rewrite Nat.add_succ_r in Hraise.
Qed.

(** What a completed [embed_document] has written. *)
Lemma embed_document_ok (content doc_id : string) (st st' : State) :
  embed_document content doc_id st = (Ok tt, st') ->
  exists excerpts,
    get_excerpts content 2000 200 = Ok excerpts /\
    doc_id_to_excerpt_ids st' =
      <[doc_id := excerpt_ids_of excerpts]> (doc_id_to_excerpt_ids st) /\
    embeddings_file st' = embeddings_db st' /\
    (forall id, id ∈ excerpt_ids_of excerpts ->
       (exists record, excerpt_db st' !! id = Some record /\ x_doc_id record = doc_id) /\
       (exists record, embeddings_db st' !! id = Some record /\ v_doc_id record = doc_id)) /\
    (forall key, key ∉ excerpt_ids_of excerpts ->
       excerpt_db st' !! key = excerpt_db st !! key /\
       embeddings_db st' !! key = embeddings_db st !! key).
Proof.
  unfold embed_document. intros Hrun.
  apply bind_ok_inv in Hrun as (excerpts & st0 & Hlift & Hrun).
  unfold lift in Hlift. apply pair_equal_spec in Hlift as [Hexcerpts <-].
  apply bind_ok_inv in Hrun as (ids & st1 & Hloop & Hrun).
  pose proof (embed_loop_unchanged doc_id_to_excerpt_ids content doc_id excerpts 0
                ltac:(done) ltac:(done) ltac:(done) st) as Hids.
  rewrite Hloop in Hids. cbn in Hids.
  apply embed_loop_ok in Hloop as (-> & Htagged & Hother).
  cbn in Hrun. injection Hrun as <-. cbn.
  exists excerpts. rewrite Hids. by repeat (split; [done|]).
Qed.

(** When every model call answers, [embed_document] completes. *)
Lemma embed_document_succeeds (content doc_id : string) (st : State) :
  (forall calls prompt, is_Some (get_completion calls prompt)) ->
  (forall calls text, is_Some (get_embedding calls text)) ->
  exists st', embed_document content doc_id st = (Ok tt, st').
Proof.
  intros Hcompletion Hembedding. unfold embed_document.
  destruct (get_excerpts_default_ok content) as [excerpts Hexcerpts].
  destruct (embed_loop_succeeds content doc_id excerpts 0 st Hcompletion Hembedding)
    as (ids & st1 & Hloop).
  unfold bind at 1. unfold lift. rewrite Hexcerpts.
  unfold bind at 1. rewrite Hloop. cbn. by eexists.
Qed.

(** The excerpts of a content: their number, where each starts and how
    long it is. *)
Lemma get_excerpts_correct (content : string) (n overlap : Z) :
  overlap < n -> 0 <= overlap ->
  exists excerpts,
    get_excerpts content n overlap = Ok excerpts /\
    Z.of_nat (length excerpts) =
      ceil_div (Z.of_nat (String.length content)) (n - overlap) /\
    forall (i : nat) (excerpt : string),
      excerpts !! i = Some excerpt ->
      excerpt = String.substring (Z.to_nat (Z.of_nat i * (n - overlap)))
                                 (Z.to_nat n) content /\
      Z.of_nat (String.length excerpt) =
        Z.min n (Z.of_nat (String.length content) - Z.of_nat i * (n - overlap)).
Proof.
  intros Hstep Hoverlap. eexists. split; [by apply get_excerpts_windows|].
  set (len := Z.of_nat (String.length content)).
  set (step := n - overlap).
  assert (Hstep_pos : 0 < step) by (unfold step; lia).
  pose proof (ceil_div_bounds len step Hstep_pos) as Hceil.
  assert (Hcount : 0 <= ceil_div len step) by (unfold len in *; nia).
  split.
  - rewrite length_map, length_seq. lia.
  - intros i excerpt Hi. rewrite list_lookup_fmap in Hi.
    destruct (seq 0 (Z.to_nat (ceil_div len step)) !! i) as [k|] eqn:Hk;
      [|discriminate].
    apply lookup_seq in Hk as [-> Hlt]. cbn in Hi. injection Hi as <-.
    assert (Hin : Z.of_nat i * step < len) by nia.
    rewrite slice_window by (unfold len in *; nia).
    split; [reflexivity|].
    rewrite substring_length. unfold len in *. lia.
Qed.

(** C6, amended. For [windowSize > overlap >= 0], [get_excerpts] returns
    [ceil(len(content) / step)] excerpts in order, the i-th starting at
    offset [i * step] with length [min(windowSize, len(content) - i * step)].
    A completed [embed_document] then records, under the doc id, the list
    of the excerpt ids in chunk order, and leaves in the vector index
    exactly one record for every distinct excerpt id, tagged with the doc
    id, next to the records it had under other ids; when the excerpt ids
    are pairwise distinct and new to the index, the index has grown by
    exactly one record per excerpt. *)
Theorem chunk_and_index (content : string) (n overlap : Z) (doc_id : string)
    (st st' : State) :
  overlap < n -> 0 <= overlap ->
  (exists excerpts,
     get_excerpts content n overlap = Ok excerpts /\
     Z.of_nat (length excerpts) =
       ceil_div (Z.of_nat (String.length content)) (n - overlap) /\
     forall (i : nat) (excerpt : string),
       excerpts !! i = Some excerpt ->
       excerpt = String.substring (Z.to_nat (Z.of_nat i * (n - overlap)))
                                  (Z.to_nat n) content /\
       Z.of_nat (String.length excerpt) =
         Z.min n (Z.of_nat (String.length content) - Z.of_nat i * (n - overlap))) /\
  (embed_document content doc_id st = (Ok tt, st') ->
   exists excerpts,
     get_excerpts content 2000 200 = Ok excerpts /\
     doc_id_to_excerpt_ids st' !! doc_id = Some (excerpt_ids_of excerpts) /\
     dom (embeddings_db st') =
       dom (embeddings_db st) ∪ list_to_set (excerpt_ids_of excerpts) /\
     (forall id, id ∈ excerpt_ids_of excerpts ->
        exists record,
          embeddings_db st' !! id = Some record /\ v_doc_id record = doc_id) /\
     (NoDup (excerpt_ids_of excerpts) ->
      (forall id, id ∈ excerpt_ids_of excerpts -> embeddings_db st !! id = None) ->
      size (embeddings_db st') =
        (size (embeddings_db st) + length excerpts)%nat)).
Proof.
  intros Hstep Hoverlap. split; [by apply get_excerpts_correct|].
  intros Hrun.
  apply embed_document_ok in Hrun
    as (excerpts & Hexcerpts & Hids & _ & Htagged & Hother).
  exists excerpts. split; [exact Hexcerpts|].
  split; [rewrite Hids; apply lookup_insert_eq|].
  assert (Hdom : dom (embeddings_db st') =
                 dom (embeddings_db st) ∪ list_to_set (excerpt_ids_of excerpts)).
  { apply set_eq. intros key.
    rewrite elem_of_union, elem_of_list_to_set, !elem_of_dom.
    destruct (decide (key ∈ excerpt_ids_of excerpts)) as [Hin|Hnotin].
    - destruct (Htagged _ Hin) as [_ [record [Hrecord _]]].
      rewrite Hrecord. split; [by right | by eexists].
    - destruct (Hother _ Hnotin) as [_ ->].
      split; [by left | by intros [Hold|Hnew]]. }
  split; [exact Hdom|].
  split; [intros id Hid; destruct (Htagged _ Hid) as [_ Hrecord]; exact Hrecord|].
  intros Hnodup Hfresh.
  rewrite <- !size_dom, Hdom, size_union.
  - rewrite size_list_to_set by done.
    unfold excerpt_ids_of. by rewrite length_map.
  - intros key Hold Hnew. apply elem_of_list_to_set in Hnew.
    apply elem_of_dom in Hold as [record Hrecord].
    rewrite (Hfresh _ Hnew) in Hrecord. discriminate.
Qed.

(** C10. Suppose the loop of [embed_document] has completed its turns
    for the excerpts before excerpt k, and that the summary call or the
    embedding call of the turn for excerpt k raises. Then
    [embed_document] raises the same exception and the extraction leg
    that follows it in [import_document] is not run. The excerpt records
    and the vector index are as the completed turns left them: each of
    the excerpts before k has its excerpt record and its vector record,
    tagged with the doc id, and nothing else was written. The vector
    index has not been saved to its file and the doc id has been given
    no list of excerpt ids. *)
Theorem embed_document_no_rollback (content doc_id : string)
    (before after : list string) (excerpt : string) (st st_k : State)
    (ids : list string) :
  get_excerpts content 2000 200 = Ok (before ++ excerpt :: after) ->
  embed_loop content doc_id 0 before st = (Ok ids, st_k) ->
  (get_completion (clock st_k) (excerpt_summary_prompt content excerpt) = None \/
   exists summary,
     get_completion (clock st_k) (excerpt_summary_prompt content excerpt)
       = Some summary /\
     get_embedding (S (clock st_k)) (excerpt +:+ newline +:+ newline +:+ summary)
       = None) ->
  exists st',
    embed_document content doc_id st = (Raise ModelCallError, st') /\
    (let* _ := embed_document content doc_id in extract_entities content doc_id) st
      = (Raise ModelCallError, st') /\
    excerpt_db st' = excerpt_db st_k /\
    embeddings_db st' = embeddings_db st_k /\
    (forall id, id ∈ excerpt_ids_of before ->
       (exists record, excerpt_db st' !! id = Some record /\ x_doc_id record = doc_id) /\
       (exists record, embeddings_db st' !! id = Some record /\ v_doc_id record = doc_id)) /\
    (forall key, key ∉ excerpt_ids_of before ->
       excerpt_db st' !! key = excerpt_db st !! key /\
       embeddings_db st' !! key = embeddings_db st !! key) /\
    doc_id_to_excerpt_ids st' = doc_id_to_excerpt_ids st /\
    embeddings_file st' = embeddings_file st /\
    kg_db st' = kg_db st.
Proof.
  intros Hexcerpts Hbefore Hfail.
  assert (Hturn : exists st',
    embed_excerpt content doc_id (0 + length before) excerpt st_k
      = (Raise ModelCallError, st') /\
    excerpt_db st' = excerpt_db st_k /\ embeddings_db st' = embeddings_db st_k).
  { rewrite embed_excerpt_run. destruct Hfail as [->|(summary & -> & ->)];
      by eexists. }
  destruct Hturn as (st' & Hturn & Hexc & Hdb).
  pose proof (embed_loop_raise content doc_id before after excerpt 0 st st_k st'
                ids ModelCallError Hbefore Hturn) as Hloop.
  assert (Hrun : embed_document content doc_id st = (Raise ModelCallError, st')).
  { unfold embed_document. unfold bind at 1. unfold lift. rewrite Hexcerpts.
    unfold bind at 1. by rewrite Hloop. }
  pose proof (embed_loop_unchanged doc_id_to_excerpt_ids content doc_id
                (before ++ excerpt :: after) 0
                ltac:(done) ltac:(done) ltac:(done) st) as Hids.
  pose proof (embed_loop_unchanged embeddings_file content doc_id
                (before ++ excerpt :: after) 0
                ltac:(done) ltac:(done) ltac:(done) st) as Hfile.
  pose proof (embed_loop_unchanged kg_db content doc_id
                (before ++ excerpt :: after) 0
                ltac:(done) ltac:(done) ltac:(done) st) as Hkg.
  rewrite Hloop in Hids, Hfile, Hkg. cbn in Hids, Hfile, Hkg.
  apply embed_loop_ok in Hbefore as (-> & Htagged & Hother).
  exists st'. split; [exact Hrun|].
  split; [unfold bind at 1; by rewrite Hrun|].
  rewrite Hexc, Hdb. by repeat (split; [done|]).
Qed.

(** ** The document lifecycle *)

Lemma import_document_new (source content : string) (st : State) :
  source_to_doc_id_map st !! source = None ->
  import_document source content st = index_new_content source content st.
Proof.
  intros Hnew. unfold import_document, index_new_content.
  unfold bind at 1. cbn [get_json contents SOURCE_TO_DOC_ID_MAP].
  by rewrite Hnew.
Qed.

Lemma import_document_update (source content old_doc_id : string) (st : State) :
  source_to_doc_id_map st !! source = Some old_doc_id ->
  old_doc_id <> make_hash content "doc_" ->
  import_document source content st =
  index_new_content source content (remove_document_by_id old_doc_id st).2.
Proof.
  intros Hold Hne. unfold import_document, index_new_content.
  unfold bind at 1. cbn [get_json contents SOURCE_TO_DOC_ID_MAP].
  rewrite Hold, decide_True by done.
  unfold bind at 1. by rewrite remove_document_by_id_ok.
Qed.

Lemma import_document_skip (source content : string) (st : State) :
  source_to_doc_id_map st !! source = Some (make_hash content "doc_") ->
  import_document source content st = (Ok tt, st).
Proof.
  intros Hsame. unfold import_document.
  unfold bind at 1. cbn [get_json contents SOURCE_TO_DOC_ID_MAP].
  rewrite Hsame. rewrite decide_False; [reflexivity|]. intros Hne. by apply Hne.
Qed.

(** The two legs write neither id map. *)
Lemma indexing_legs_unchanged {T : Type} (proj : State -> T)
    (content doc_id : string) :
  (forall st, proj (tick st) = proj st) ->
  (forall m st, proj (set_embeddings_db m st) = proj st) ->
  (forall m st, proj (set_embeddings_file m st) = proj st) ->
  (forall m st, proj (overwrite EXCERPT_DB m st) = proj st) ->
  (forall m st, proj (overwrite DOC_ID_TO_EXCERPT_IDS m st) = proj st) ->
  (forall file st, proj (set_kg_db file st) = proj st) ->
  unchanged proj
    (let* _ := embed_document content doc_id in extract_entities content doc_id).
Proof.
  intros Htick Hdb Hfile Hexc Hids Hkg.
  apply unchanged_bind; [by apply embed_document_unchanged | intros _].
  by apply extract_entities_unchanged.
Qed.

(** [index_new_content] starts by recording the two id-map entries. *)
Lemma index_new_content_run (source content : string) (st : State) :
  index_new_content source content st =
  (let* _ := embed_document content (make_hash content "doc_") in
   extract_entities content (make_hash content "doc_"))
    (add_document_maps source content st).2.
Proof. reflexivity. Qed.

Lemma index_new_content_maps (source content : string) (st : State) :
  let st' := (index_new_content source content st).2 in
  source_to_doc_id_map st' =
    <[source := make_hash content "doc_"]> (source_to_doc_id_map st) /\
  doc_id_to_source_map st' =
    <[make_hash content "doc_" := source]> (doc_id_to_source_map st).
Proof.
  cbv zeta. rewrite index_new_content_run. split.
  - by rewrite (indexing_legs_unchanged source_to_doc_id_map).
  - by rewrite (indexing_legs_unchanged doc_id_to_source_map).
Qed.

(** After [import_document], whether it returned or raised, the source
    is mapped to the hash of the content it was given. *)
Lemma import_document_records_source (source content : string) (st : State) :
  source_to_doc_id_map (import_document source content st).2 !! source =
  Some (make_hash content "doc_").
Proof.
  destruct (source_to_doc_id_map st !! source) as [old_doc_id|] eqn:Hsource.
  - destruct (decide (old_doc_id = make_hash content "doc_")) as [->|Hne].
    + by rewrite import_document_skip.
    + rewrite (import_document_update _ _ _ _ Hsource Hne).
      destruct (index_new_content_maps source content
                  (remove_document_by_id old_doc_id st).2) as [-> _].
      apply lookup_insert_eq.
  - rewrite (import_document_new _ _ _ Hsource).
    destruct (index_new_content_maps source content st) as [-> _].
    apply lookup_insert_eq.
Qed.

(** C2. When the hash of the content of a source is the doc id the
    source-to-doc-id map holds for it, [import_document] returns at once
    and the state is the one it started from: no id is created, none of
    the four maps changes, no excerpt record is written and the vector
    index is not touched. So a pass over sources that are all unchanged
    changes nothing, and importing a source a second time with the same
    content changes nothing. *)
Theorem import_unchanged_source_noop (source content : string)
    (docs : list (string * string)) (st : State) :
  (source_to_doc_id_map st !! source = Some (make_hash content "doc_") ->
   import_document source content st = (Ok tt, st)) /\
  (Forall (fun doc => source_to_doc_id_map st !! doc.1
                      = Some (make_hash doc.2 "doc_")) docs ->
   import_documents docs st = (Ok tt, st)) /\
  (let st1 := (import_document source content st).2 in
   import_document source content st1 = (Ok tt, st1)).
Proof.
  split; [apply import_document_skip|]. split.
  - unfold import_documents. induction 1 as [|doc docs Hdoc _ IH];
      cbn [for_each]; [reflexivity|].
    unfold bind. by rewrite (import_document_skip _ _ _ Hdoc).
  - cbv zeta. apply import_document_skip, import_document_records_source.
Qed.


(** Indexing under a doc id leaves the excerpt-id lists of the other doc
    ids alone, whether it returns or raises. *)
Lemma index_new_content_other_ids (source content key : string) :
  key <> make_hash content "doc_" ->
  unchanged (fun st => doc_id_to_excerpt_ids st !! key)
    (index_new_content source content).
Proof.
  intros Hkey. unfold index_new_content.
  apply unchanged_bind; [by apply add_document_maps_unchanged | intros _].
  apply unchanged_bind; [|intros _; by apply extract_entities_unchanged].
  unfold embed_document.
  apply unchanged_bind; [apply unchanged_lift | intros excerpts].
  apply unchanged_bind; [by apply embed_loop_unchanged | intros excerpt_ids].
  apply unchanged_bind; [by apply unchanged_modify | intros _].
  apply unchanged_modify. intros st. cbn. by rewrite lookup_insert_ne.
Qed.

(** ** The extraction leg and the graph *)

Lemma graph_extends_refl (g : DiGraph) : graph_extends g g.
Proof. by repeat split. Qed.

Lemma graph_extends_trans (g1 g2 g3 : DiGraph) :
  graph_extends g1 g2 -> graph_extends g2 g3 -> graph_extends g1 g3.
Proof.
  intros (Hn & He & Ha) (Hn' & He' & Ha').
  repeat split; etransitivity; eassumption.
Qed.

Lemma add_node_extends (g : DiGraph) (name : string) (attr : gmap string string) :
  graph_extends g (add_node g name attr).
Proof.
  repeat split; cbn; [|done..]. rewrite dom_insert_L. set_solver.
Qed.

Lemma add_edge_extends (g : DiGraph) (u v : string) (attr : gmap string string) :
  graph_extends g (add_edge g u v attr).
Proof.
  repeat split; cbn; [| |done]; rewrite ?dom_insert_L; set_solver.
Qed.

Lemma set_graph_attr_extends (g : DiGraph) (key value : string) :
  graph_extends g (set_graph_attr g key value).
Proof.
  repeat split; cbn; [done..|]. rewrite dom_insert_L. set_solver.
Qed.

Lemma apply_fields_extends (g : DiGraph) (fields : list string) :
  graph_extends g (apply_fields g fields).
Proof.
  unfold apply_fields. destruct fields as [|field0 fields];
    [apply graph_extends_refl|].
  repeat case_decide.
  - destruct fields as [|? [|? [|? ?]]];
      auto using graph_extends_refl, add_node_extends.
  - destruct fields as [|? [|? [|? [|? [|? ?]]]]];
      auto using graph_extends_refl, add_edge_extends.
  - destruct fields as [|? ?];
      auto using graph_extends_refl, set_graph_attr_extends.
  - apply graph_extends_refl.
Qed.

Lemma apply_records_extends (records : list string) (g : DiGraph) :
  graph_extends g (apply_records records g).
Proof.
  unfold apply_records. revert g.
  induction records as [|record records IH]; intros g; cbn [foldl].
  - apply graph_extends_refl.
  - eapply graph_extends_trans; [apply apply_fields_extends | apply IH].
Qed.

Lemma extract_loop_extends (excerpts : list string) (g g' : DiGraph)
    (st st' : State) :
  extract_loop excerpts g st = (Ok g', st') -> graph_extends g g'.
Proof.
  revert g st. induction excerpts as [|excerpt rest IH]; intros g st Hrun;
    cbn [extract_loop] in Hrun.
  - injection Hrun as <- _. apply graph_extends_refl.
  - apply bind_ok_inv in Hrun as (result & st1 & _ & Hrest).
    eapply graph_extends_trans; [apply apply_records_extends | by eapply IH].
Qed.

(** [extract_entities] writes the graph file once, after its loop; when
    the loop raises the file is as it was. *)
Lemma extract_entities_run (content doc_id : string) (st : State) :
  exists excerpts,
    get_excerpts content 2000 200 = Ok excerpts /\
    extract_entities content doc_id st =
    match extract_loop excerpts (load_graph (kg_db st)) st with
    | (Ok graph, st1) => (Ok tt, set_kg_db (write_graphml graph) st1)
    | (Raise e, st1) => (Raise e, st1)
    end.
Proof.
  destruct (get_excerpts_default_ok content) as [excerpts Hexcerpts].
  exists excerpts. split; [exact Hexcerpts|].
  unfold extract_entities. unfold bind at 1. unfold lift. rewrite Hexcerpts.
  unfold bind. by destruct (extract_loop _ _ _) as [[graph|e] st1].
Qed.

(** What the extraction leg leaves in the graph file: when it returns,
    what [nx.write_graphml] makes of a graph that has everything the
    loaded graph had; when it raises, the file as it was. *)
Lemma extract_entities_writes (content doc_id : string) (st : State) :
  match (extract_entities content doc_id st).1 with
  | Ok _ =>
      exists graph,
        kg_db (extract_entities content doc_id st).2 = write_graphml graph /\
        graph_extends (load_graph (kg_db st)) graph
  | Raise _ => kg_db (extract_entities content doc_id st).2 = kg_db st
  end.
Proof.
  destruct (extract_entities_run content doc_id st) as (excerpts & _ & ->).
  pose proof (extract_loop_unchanged kg_db excerpts (load_graph (kg_db st))
                ltac:(done) st) as Hkg.
  destruct (extract_loop _ _ _) as [[graph|e] st1] eqn:Hloop; cbn in *.
  - exists graph. split; [reflexivity | by eapply extract_loop_extends].
  - exact Hkg.
Qed.

Lemma index_new_content_writes (source content : string) (st : State) :
  match (index_new_content source content st).1 with
  | Ok _ =>
      exists graph,
        kg_db (index_new_content source content st).2 = write_graphml graph /\
        graph_extends (load_graph (kg_db st)) graph
  | Raise _ => kg_db (index_new_content source content st).2 = kg_db st
  end.
Proof.
  rewrite index_new_content_run.
  set (st_m := (add_document_maps source content st).2).
  pose proof (embed_document_unchanged kg_db content (make_hash content "doc_")
                ltac:(done) ltac:(done) ltac:(done) ltac:(done) ltac:(done) st_m)
    as Hkg.
  unfold bind.
  destruct (embed_document content (make_hash content "doc_") st_m)
    as [[[]|e] st_e]; cbn in Hkg.
  - pose proof (extract_entities_writes content (make_hash content "doc_") st_e)
      as Hwrite.
    rewrite Hkg in Hwrite. exact Hwrite.
  - cbn. congruence.
Qed.



(** C9. [remove_document_by_id] leaves the graph file as it was, for
    every doc id and every state. When [import_document] updates a
    source, the removal of the old document, the recording of the new
    map entries and the embedding leg leave the graph file as it was, so
    the extraction leg of the new content starts from the graph the file
    held before the update, with everything extracted from the superseded
    document in it. That leg only adds or overwrites: when the update
    returns, the graph it hands to [nx.write_graphml] has every node,
    edge and graph attribute of the graph it loaded, and the file is what
    that write leaves; when the update raises, the file is as it was. *)
Theorem removal_keeps_graph (source content old_doc_id doc_id : string)
    (st : State) :
  kg_db (remove_document_by_id doc_id st).2 = kg_db st /\
  (source_to_doc_id_map st !! source = Some old_doc_id ->
   old_doc_id <> make_hash content "doc_" ->
   import_document source content st =
     index_new_content source content (remove_document_by_id old_doc_id st).2 /\
   kg_db (remove_document_by_id old_doc_id st).2 = kg_db st /\
   kg_db ((let* _ := remove_document_by_id old_doc_id in
           let* _ := add_document_maps source content in
           embed_document content (make_hash content "doc_")) st).2 = kg_db st /\
   match (import_document source content st).1 with
   | Ok _ =>
       exists graph',
         kg_db (import_document source content st).2 = write_graphml graph' /\
         graph_extends (load_graph (kg_db st)) graph'
   | Raise _ => kg_db (import_document source content st).2 = kg_db st
   end).
Proof.
  assert (Hremove : forall id, kg_db (remove_document_by_id id st).2 = kg_db st).
  { intros id.
    by destruct (remove_document_by_id_run id st) as (_&_&_&_&_&_&_&Hkg&_). }
  split; [apply Hremove|].
  intros Hold Hne.
  split; [by apply import_document_update|].
  split; [apply Hremove|].
  split.
  - unfold bind at 1. rewrite remove_document_by_id_ok.
    rewrite <- (Hremove old_doc_id).
    apply (unchanged_bind kg_db).
    + by apply add_document_maps_unchanged.
    + intros _. by apply embed_document_unchanged.
  - rewrite (import_document_update _ _ _ _ Hold Hne).
    pose proof (index_new_content_writes source content
                  (remove_document_by_id old_doc_id st).2) as Hwrite.
    rewrite (Hremove old_doc_id) in Hwrite. exact Hwrite.
Qed.

(** ** Records that are dropped *)

Lemma apply_fields_dropped (graph : DiGraph) (fields : list string) :
  dropped fields = true -> apply_fields graph fields = graph.
Proof.
  unfold dropped, apply_fields. destruct fields as [|field0 fields]; [done|].
  repeat case_decide; try done.
  - destruct fields as [|? [|? [|? ?]]]; cbn; done.
  - destruct fields as [|? [|? [|? [|? [|? ?]]]]]; cbn; done.
  - destruct fields as [|? ?]; cbn; done.
Qed.

Lemma extract_loop_succeeds (excerpts : list string) (graph : DiGraph)
    (st : State) :
  (forall calls prompt, is_Some (get_completion calls prompt)) ->
  exists graph' st', extract_loop excerpts graph st = (Ok graph', st').
Proof.
  intros Hcompletion. revert graph st.
  induction excerpts as [|excerpt rest IH]; intros graph st; cbn [extract_loop].
  - by eexists _, _.
  - unfold bind, call.
    destruct (Hcompletion (clock st) (get_extract_entities_prompt excerpt))
      as [result ->].
    apply IH.
Qed.

(** C5. A record whose fields are too few for its discriminator, or
    whose discriminator is unknown, leaves the graph as it is, and the
    records of the same batch are applied as if it were not among them:
    the graph after the batch is the graph after the batch without that
    record. No record makes the extraction raise: whatever the model
    answers, as long as it answers, [extract_entities] returns. *)
Theorem malformed_record_dropped (before after : list string) (record : string)
    (graph : DiGraph) (content doc_id : string) (st : State) :
  dropped (split_string_by_multi_markers record [FIELD_DELIMITER]) = true ->
  apply_fields graph (split_string_by_multi_markers record [FIELD_DELIMITER])
    = graph /\
  apply_records (before ++ record :: after) graph
    = apply_records (before ++ after) graph /\
  ((forall calls prompt, is_Some (get_completion calls prompt)) ->
   exists st', extract_entities content doc_id st = (Ok tt, st')).
Proof.
  intros Hdropped. split; [by apply apply_fields_dropped|]. split.
  - unfold apply_records. rewrite !foldl_app. cbn [foldl].
    by rewrite apply_fields_dropped.
  - intros Hcompletion.
    destruct (extract_entities_run content doc_id st) as (excerpts & _ & ->).
    destruct (extract_loop_succeeds excerpts (load_graph (kg_db st)) st Hcompletion)
      as (graph' & st1 & ->).
    by eexists.
Qed.

(** ** The two id maps *)

Lemma remove_document_by_id_consistent (doc_id : string) :
  preserves ids_consistent (remove_document_by_id doc_id).
Proof.
  intros st Hinv d s.
  destruct (remove_document_by_id_run doc_id st) as (_ & -> & -> & _).
  intros Hd. apply lookup_delete_Some in Hd as [Hne Hd].
  pose proof (Hinv _ _ Hd) as Hs.
  destruct (doc_id_to_source_map st !! doc_id) as [recorded|] eqn:Hrecorded;
    [|exact Hs].
  rewrite lookup_delete_ne; [exact Hs|].
  intros ->. apply Hinv in Hrecorded. congruence.
Qed.

(** After the removal of the doc id a source is mapped to, no doc id is
    recorded for that source. *)
Lemma remove_document_by_id_frees_source (source old_doc_id : string)
    (st : State) :
  ids_consistent st ->
  source_to_doc_id_map st !! source = Some old_doc_id ->
  forall doc_id,
    doc_id_to_source_map (remove_document_by_id old_doc_id st).2 !! doc_id
    <> Some source.
Proof.
  intros Hinv Hold doc_id.
  destruct (remove_document_by_id_run old_doc_id st) as (_ & _ & -> & _).
  intros Hd. apply lookup_delete_Some in Hd as [Hne Hd].
  apply Hinv in Hd. congruence.
Qed.

Lemma index_new_content_consistent (source content : string) (st : State) :
  ids_consistent st ->
  (forall doc_id, doc_id <> make_hash content "doc_" ->
                  doc_id_to_source_map st !! doc_id <> Some source) ->
  ids_consistent (index_new_content source content st).2.
Proof.
  intros Hinv Hfree d s.
  destruct (index_new_content_maps source content st) as [-> ->].
  intros Hd. apply lookup_insert_Some in Hd as [[<- <-]|[Hne Hd]].
  - apply lookup_insert_eq.
  - rewrite lookup_insert_ne; [by apply Hinv|].
    intros <-. by apply (Hfree d).
Qed.

Lemma import_document_consistent (source content : string) :
  preserves ids_consistent (import_document source content).
Proof.
  intros st Hinv.
  destruct (source_to_doc_id_map st !! source) as [old_doc_id|] eqn:Hsource.
  - destruct (decide (old_doc_id = make_hash content "doc_")) as [->|Hne].
    + by rewrite import_document_skip.
    + rewrite (import_document_update _ _ _ _ Hsource Hne).
      apply index_new_content_consistent.
      * by apply remove_document_by_id_consistent.
      * intros doc_id _.
        by apply remove_document_by_id_frees_source with (old_doc_id := old_doc_id).
  - rewrite (import_document_new _ _ _ Hsource).
    apply index_new_content_consistent; [exact Hinv|].
    intros doc_id _ Hd. apply Hinv in Hd. congruence.
Qed.

Lemma run_operation_consistent (op : Operation) (st : State) :
  ids_consistent st -> ids_consistent (run_operation st op).
Proof.
  intros Hinv. destruct op as [docs|doc_id|]; cbn [run_operation].
  - apply (preserves_for_each ids_consistent); [|exact Hinv].
    intros doc _. apply import_document_consistent.
  - by apply remove_document_by_id_consistent.
  - exact Hinv.
Qed.

Lemma remove_document_by_id_recorded (docs : list (string * string))
    (doc_id : string) :
  preserves (sources_recorded docs) (remove_document_by_id doc_id).
Proof.
  intros st Hinv s d.
  destruct (remove_document_by_id_run doc_id st) as (_ & -> & -> & _).
  intros Hs.
  assert (Hold : source_to_doc_id_map st !! s = Some d /\
                 doc_id_to_source_map st !! doc_id <> Some s).
  { destruct (doc_id_to_source_map st !! doc_id) as [recorded|]; [|done].
    apply lookup_delete_Some in Hs as [Hne Hs]. split; [exact Hs | congruence]. }
  destruct Hold as [Hold Hother].
  destruct (Hinv _ _ Hold) as [Hd Hcontent]. split; [|exact Hcontent].
  rewrite lookup_delete_ne; [exact Hd|]. intros ->. congruence.
Qed.

Lemma index_new_content_recorded (docs : list (string * string))
    (source content : string) (st : State) :
  hash_identifies_source docs ->
  (source, content) ∈ docs ->
  sources_recorded docs st ->
  sources_recorded docs (index_new_content source content st).2.
Proof.
  intros Hhash Hdoc Hinv s d.
  destruct (index_new_content_maps source content st) as [-> ->].
  intros Hs. apply lookup_insert_Some in Hs as [[<- <-]|[Hne Hs]].
  - split; [apply lookup_insert_eq | by exists content].
  - destruct (Hinv _ _ Hs) as [Hd (content' & Hdoc' & Hd')].
    split; [|by exists content'].
    rewrite lookup_insert_ne; [exact Hd|].
    intros Heq. apply Hne. subst d.
    by apply (Hhash source content s content').
Qed.

Lemma import_document_recorded (docs : list (string * string))
    (source content : string) :
  hash_identifies_source docs ->
  (source, content) ∈ docs ->
  preserves (sources_recorded docs) (import_document source content).
Proof.
  intros Hhash Hdoc st Hinv.
  destruct (source_to_doc_id_map st !! source) as [old_doc_id|] eqn:Hsource.
  - destruct (decide (old_doc_id = make_hash content "doc_")) as [->|Hne].
    + by rewrite import_document_skip.
    + rewrite (import_document_update _ _ _ _ Hsource Hne).
      apply index_new_content_recorded; [done..|].
      by apply remove_document_by_id_recorded.
  - rewrite (import_document_new _ _ _ Hsource).
    by apply index_new_content_recorded.
Qed.

Lemma run_operations_consistent (ops : list Operation) (st : State) :
  ids_consistent st -> ids_consistent (run_operations ops st).
Proof.
  unfold run_operations. revert st.
  induction ops as [|op ops IH]; intros st Hinv; cbn [foldl]; [exact Hinv|].
  by apply IH, run_operation_consistent.
Qed.

Lemma run_operations_recorded (docs : list (string * string))
    (ops : list Operation) (st : State) :
  hash_identifies_source docs ->
  (forall doc, doc ∈ imported_docs ops -> doc ∈ docs) ->
  sources_recorded docs st ->
  sources_recorded docs (run_operations ops st).
Proof.
  intros Hhash. unfold run_operations. revert st.
  induction ops as [|op ops IH]; intros st Hsub Hinv; cbn [foldl]; [exact Hinv|].
  unfold imported_docs in Hsub. rewrite bind_cons in Hsub.
  apply IH.
  - intros doc Hdoc. apply Hsub, elem_of_app. by right.
  - destruct op as [imported|doc_id|]; cbn [run_operation].
    + apply (preserves_for_each (sources_recorded docs)); [|exact Hinv].
      intros [source content] Hdoc. apply import_document_recorded; [done|].
      apply Hsub, elem_of_app. by left.
    + by apply remove_document_by_id_recorded.
    + exact Hinv.
Qed.

(** C8, amended. After any sequence of imports, removals and restarts
    that starts from empty id maps, every entry of the doc-id-to-source
    map is mirrored in the source-to-doc-id map, which holds one doc id
    per source. When no two sources were imported with contents of the
    same hash, the converse holds too and the two maps are inverse of
    each other. *)
Theorem id_maps_after_operations (ops : list Operation) (st0 : State) :
  source_to_doc_id_map st0 = ∅ ->
  doc_id_to_source_map st0 = ∅ ->
  let st := run_operations ops st0 in
  (forall doc_id source,
     doc_id_to_source_map st !! doc_id = Some source ->
     source_to_doc_id_map st !! source = Some doc_id) /\
  (hash_identifies_source (imported_docs ops) ->
   forall source doc_id,
     source_to_doc_id_map st !! source = Some doc_id <->
     doc_id_to_source_map st !! doc_id = Some source).
Proof.
  intros Hs2d Hd2s st.
  assert (Hinv : ids_consistent st).
  { apply run_operations_consistent. intros d s. by rewrite Hd2s. }
  split; [exact Hinv|].
  intros Hhash source doc_id. split; [|apply Hinv].
  intros Hsource.
  assert (Hrec : sources_recorded (imported_docs ops) st).
  { apply run_operations_recorded; [done..|]. intros s d. by rewrite Hs2d. }
  by destruct (Hrec _ _ Hsource).
Qed.

(** ** Further properties of the operations *)

(** *** Removal *)

Lemma remove_document_by_id_unknown (doc_id : string) (st : State) :
  doc_id_to_source_map st !! doc_id = None ->
  doc_id_to_excerpt_ids st !! doc_id = None ->
  remove_document_by_id doc_id st = (Ok tt, st).
Proof.
  intros Hsource Hids. unfold remove_document_by_id, bind, get_json. cbn.
  rewrite Hsource, Hids. reflexivity.
Qed.

(** X1. Removing a doc id that is a key of neither the doc-id-to-source
    map nor the doc-id-to-excerpt-ids map changes nothing at all, and so
    removing the same doc id a second time changes nothing: the second
    call returns the state the first one left. *)
Theorem remove_document_by_id_twice (doc_id : string) (st : State) :
  (doc_id_to_source_map st !! doc_id = None ->
   doc_id_to_excerpt_ids st !! doc_id = None ->
   remove_document_by_id doc_id st = (Ok tt, st)) /\
  remove_document_by_id doc_id (remove_document_by_id doc_id st).2
    = (Ok tt, (remove_document_by_id doc_id st).2).
Proof.
  split; [apply remove_document_by_id_unknown|].
  destruct (remove_document_by_id_removes doc_id st) as (Hsource & Hids & _).
  by apply remove_document_by_id_unknown.
Qed.

(** X2. [remove_document_by_id] touches nothing but the entries of its
    doc id: the entries of every other doc id in the two maps keyed by
    doc id, the entry of every source other than the one recorded for the
    doc id, and the excerpt record and vector record of every excerpt id
    that is not listed for the doc id are as before. *)
Theorem remove_document_by_id_keeps_others (doc_id : string) (st : State) :
  let st' := (remove_document_by_id doc_id st).2 in
  (forall other,
     other <> doc_id ->
     doc_id_to_source_map st' !! other = doc_id_to_source_map st !! other /\
     doc_id_to_excerpt_ids st' !! other = doc_id_to_excerpt_ids st !! other) /\
  (forall source,
     doc_id_to_source_map st !! doc_id <> Some source ->
     source_to_doc_id_map st' !! source = source_to_doc_id_map st !! source) /\
  (forall excerpt_id,
     excerpt_id ∉ default [] (doc_id_to_excerpt_ids st !! doc_id) ->
     excerpt_db st' !! excerpt_id = excerpt_db st !! excerpt_id /\
     embeddings_db st' !! excerpt_id = embeddings_db st !! excerpt_id).
Proof.
  intros st'.
  destruct (remove_document_by_id_run doc_id st)
    as (_ & Hs2d & Hd2s & Hd2e & Hexc & Hdb & _).
  fold st' in Hs2d, Hd2s, Hd2e, Hexc, Hdb.
  split; [|split].
  - intros other Hne. rewrite Hd2s, Hd2e.
    split; apply lookup_delete_ne; congruence.
  - intros source Hother. rewrite Hs2d.
    destruct (doc_id_to_source_map st !! doc_id) as [recorded|]; [|reflexivity].
    apply lookup_delete_ne. congruence.
  - intros excerpt_id Hnot. rewrite Hexc, Hdb. split.
    + rewrite lookup_foldl_delete. by rewrite decide_False.
    + destruct (doc_id_to_excerpt_ids st !! doc_id) as [excerpt_ids|];
        [|reflexivity].
      cbn in Hnot.
      destruct (embeddings_db st !! excerpt_id) as [record|] eqn:Hrecord.
      * by apply map_lookup_filter_Some.
      * apply map_lookup_filter_None. by left.
Qed.

(** X3. Both operations that change the vector index and run to their
    end have saved it: after a completed [embed_document], and after a
    [remove_document_by_id] of a doc id that lists excerpt ids, the index
    file holds the index of the process, so that a restart of the process
    reads the same index back. *)
Theorem index_saved_after_write (content doc_id : string) (st st' : State) :
  (embed_document content doc_id st = (Ok tt, st') -> restart st' = st') /\
  (is_Some (doc_id_to_excerpt_ids st !! doc_id) ->
   restart (remove_document_by_id doc_id st).2
     = (remove_document_by_id doc_id st).2).
Proof.
  assert (Hrestart : forall s : State,
            embeddings_file s = embeddings_db s -> restart s = s).
  { intros [] Hsame. cbn in Hsame. unfold restart, set_embeddings_db. cbn.
    by rewrite Hsame. }
  split.
  - intros Hrun. apply Hrestart.
    by apply embed_document_ok in Hrun as (excerpts & _ & _ & Hsaved & _).
  - intros [excerpt_ids Hids]. apply Hrestart.
    destruct (remove_document_by_id_run doc_id st)
      as (_ & _ & _ & _ & _ & Hdb & Hfile & _).
    rewrite Hdb, Hfile, Hids. reflexivity.
Qed.

(** *** The import pass *)

Lemma for_each_app {A : Type} (xs ys : list A) (body : A -> M unit) (st : State) :
  for_each (xs ++ ys) body st =
  match for_each xs body st with
  | (Ok _, st1) => for_each ys body st1
  | (Raise e, st1) => (Raise e, st1)
  end.
Proof.
  revert st. induction xs as [|x xs IH]; intros st; cbn [for_each app].
  - reflexivity.
  - unfold bind. destruct (body x st) as [[[]|e] st1]; [apply IH | reflexivity].
Qed.

(** X4. [import_documents] imports the sources in order and stops at the
    first one whose import raises: the pass raises the same exception in
    the state that import left, and the sources after it are not looked
    at. A pass over two lists one after the other is the pass over the
    first followed, when it returns, by the pass over the second. *)
Theorem import_documents_stops_at_raise (before after : list (string * string))
    (doc : string * string) (st st1 st' : State) (e : exn) :
  (import_documents (before ++ after) st =
   match import_documents before st with
   | (Ok _, st_mid) => import_documents after st_mid
   | (Raise e', st_mid) => (Raise e', st_mid)
   end) /\
  (import_documents before st = (Ok tt, st1) ->
   import_document doc.1 doc.2 st1 = (Raise e, st') ->
   import_documents (before ++ doc :: after) st = (Raise e, st')).
Proof.
  unfold import_documents. split; [apply for_each_app|].
  intros Hbefore Hraise. rewrite for_each_app, Hbefore.
  cbn [for_each]. unfold bind. by rewrite Hraise.
Qed.

(** *** The graph file *)

Lemma kg_file_extends_refl (file : KgFile) : kg_file_extends file file.
Proof.
  intros graph ->. exists graph. split; [reflexivity | apply graph_extends_refl].
Qed.

Lemma kg_file_extends_trans (file1 file2 file3 : KgFile) :
  kg_file_extends file1 file2 -> kg_file_extends file2 file3 ->
  kg_file_extends file1 file3.
Proof.
  intros H12 H23 graph Hgraph.
  destruct (H12 graph Hgraph) as (graph2 & Hfile2 & Hext2).
  destruct (H23 graph2 Hfile2) as (graph3 & Hfile3 & Hext3).
  exists graph3. split; [exact Hfile3|].
  exact (graph_extends_trans _ _ _ Hext2 Hext3).
Qed.

Lemma index_new_content_kg_extends (source content : string) (st : State) :
  write_keeps ->
  kg_file_extends (kg_db st) (kg_db (index_new_content source content st).2).
Proof.
  intros Hkeeps graph Hgraph.
  pose proof (index_new_content_writes source content st) as Hwrite.
  destruct (index_new_content source content st).1.
  - destruct Hwrite as (written & -> & Hext). rewrite Hgraph in Hext.
    destruct (Hkeeps written) as (graph' & -> & Hext').
    exists graph'. split; [reflexivity|].
    exact (graph_extends_trans _ _ _ Hext Hext').
  - exists graph. split; [congruence | apply graph_extends_refl].
Qed.

Lemma import_document_kg_extends (source content : string) (st : State) :
  write_keeps ->
  kg_file_extends (kg_db st) (kg_db (import_document source content st).2).
Proof.
  intros Hkeeps.
  destruct (source_to_doc_id_map st !! source) as [old_doc_id|] eqn:Hsource.
  - destruct (decide (old_doc_id = make_hash content "doc_")) as [->|Hne].
    + rewrite import_document_skip by done. apply kg_file_extends_refl.
    + rewrite (import_document_update _ _ _ _ Hsource Hne).
      destruct (remove_document_by_id_run old_doc_id st)
        as (_ & _ & _ & _ & _ & _ & _ & Hkg & _).
      rewrite <- Hkg. by apply index_new_content_kg_extends.
  - rewrite (import_document_new _ _ _ Hsource).
    by apply index_new_content_kg_extends.
Qed.

Lemma import_documents_kg_extends (docs : list (string * string)) (st : State) :
  write_keeps ->
  kg_file_extends (kg_db st) (kg_db (import_documents docs st).2).
Proof.
  intros Hkeeps. unfold import_documents. revert st.
  induction docs as [|doc docs IH]; intros st; cbn [for_each].
  - apply kg_file_extends_refl.
  - unfold bind.
    pose proof (import_document_kg_extends doc.1 doc.2 st Hkeeps) as Hdoc.
    destruct (import_document doc.1 doc.2 st) as [[[]|e] st1]; cbn in Hdoc.
    + exact (kg_file_extends_trans _ _ _ Hdoc (IH st1)).
    + exact Hdoc.
Qed.

Lemma run_operations_kg_extends (ops : list Operation) (st : State) :
  write_keeps ->
  kg_file_extends (kg_db st) (kg_db (run_operations ops st)).
Proof.
  intros Hkeeps. unfold run_operations. revert st.
  induction ops as [|op ops IH]; intros st; cbn [foldl].
  - apply kg_file_extends_refl.
  - eapply kg_file_extends_trans; [|apply IH].
    destruct op as [docs|doc_id|]; cbn [run_operation].
    + by apply import_documents_kg_extends.
    + destruct (remove_document_by_id_run doc_id st)
        as (_ & _ & _ & _ & _ & _ & _ & Hkg & _).
      rewrite Hkg. apply kg_file_extends_refl.
    + apply kg_file_extends_refl.
Qed.

(** X5. The program itself takes nothing out of the graph. Let every
    file [nx.write_graphml] leaves be read back as a graph with every
    node, edge and graph attribute of the graph written. Then, once the
    graph file stores a graph, no sequence of imports, removals and
    restarts, completed or cut short by an exception, takes anything out
    of it: the file still stores a graph, with every node, every edge and
    every graph attribute the earlier graph had. *)
Theorem graph_only_grows (ops : list Operation) (st : State) (graph : DiGraph) :
  write_keeps ->
  kg_db st = Stored graph ->
  exists graph',
    kg_db (run_operations ops st) = Stored graph' /\
    graph_extends graph graph'.
Proof.
  intros Hkeeps Hgraph. exact (run_operations_kg_extends ops st Hkeeps graph Hgraph).
Qed.

Lemma extract_loop_same_stores (excerpts : list string) (graph : DiGraph)
    (st : State) :
  same_stores st (extract_loop excerpts graph st).2.
Proof.
  repeat split;
    match goal with
    | |- ?proj _ = ?proj _ =>
        apply (extract_loop_unchanged proj excerpts graph); reflexivity
    end.
Qed.

(** X6. The extraction leg writes the graph file all at once or not at
    all. When [extract_entities] raises, no store has changed. When it
    returns, the graph file is what [nx.write_graphml] leaves for a graph
    that has every node, edge and graph attribute of the graph that was
    loaded, and every other store is as before. *)
Theorem extract_entities_all_or_nothing (content doc_id : string) (st : State) :
  let st' := (extract_entities content doc_id st).2 in
  match (extract_entities content doc_id st).1 with
  | Raise _ => same_stores st st'
  | Ok _ =>
      (exists graph,
         kg_db st' = write_graphml graph /\
         graph_extends (load_graph (kg_db st)) graph) /\
      source_to_doc_id_map st' = source_to_doc_id_map st /\
      doc_id_to_source_map st' = doc_id_to_source_map st /\
      doc_id_to_excerpt_ids st' = doc_id_to_excerpt_ids st /\
      excerpt_db st' = excerpt_db st /\
      embeddings_db st' = embeddings_db st /\
      embeddings_file st' = embeddings_file st
  end.
Proof.
  cbv zeta.
  destruct (extract_entities_run content doc_id st) as (excerpts & _ & ->).
  pose proof (extract_loop_same_stores excerpts (load_graph (kg_db st)) st)
    as (Hs2d & Hd2s & Hd2e & Hexc & Hdb & Hfile & Hkg).
  destruct (extract_loop excerpts (load_graph (kg_db st)) st)
    as [[graph|e] st1] eqn:Hloop; cbn in *.
  - split; [|done].
    exists graph. split; [reflexivity|]. by eapply extract_loop_extends.
  - done.
Qed.

(** *** Chunking loses nothing *)

Lemma substring_none (s : string) (start : nat) :
  String.substring start 0 s = EmptyString.
Proof.
  revert start. induction s as [|c s IH]; intros [|start]; cbn; try reflexivity.
  apply IH.
Qed.

Lemma append_cons (c : ascii) (s t : string) :
  String c s +:+ t = String c (s +:+ t).
Proof. reflexivity. Qed.

Lemma append_empty_r (s : string) : s +:+ EmptyString = s.
Proof.
  induction s as [|c s IH]; [reflexivity|]. rewrite append_cons. by f_equal.
Qed.

Lemma substring_split (s : string) (start count1 count2 : nat) :
  String.substring start (count1 + count2) s =
  String.substring start count1 s +:+ String.substring (start + count1) count2 s.
Proof.
  revert start count1.
  induction s as [|c s IH]; intros [|start] [|count1];
    cbn [String.substring Nat.add]; rewrite ?append_cons; try reflexivity.
  all: try (destruct count2; reflexivity).
  - f_equal. apply (IH 0%nat count1).
  - apply (IH start 0%nat).
  - apply (IH start (S count1)).
Qed.

Lemma substring_prefix (s : string) (start count prefix : nat) :
  String.substring 0 prefix (String.substring start count s) =
  String.substring start (Nat.min prefix count) s.
Proof.
  revert start count prefix.
  induction s as [|c s IH]; intros [|start] [|count] [|prefix];
    cbn [String.substring Nat.min]; try reflexivity.
  - f_equal. apply (IH 0%nat).
  - apply (IH start 0%nat 0%nat).
  - apply (IH start 0%nat (S prefix)).
  - apply (IH start (S count) 0%nat).
  - apply (IH start (S count) (S prefix)).
Qed.

(** The pieces of [step] characters taken at [start], [start + step],
    ... make up the string from [start] on, once they reach its end. *)
Lemma stride_pieces (s : string) (step count start : nat) :
  (0 < step)%nat ->
  (String.length s - start <= count * step)%nat ->
  foldr String.append EmptyString
    ((fun k : nat => String.substring (start + k * step) step s) <$> seq 0 count)
  = String.substring start (String.length s - start) s.
Proof.
  intros Hstep. revert start.
  induction count as [|count IH]; intros start Hcover.
  - replace (String.length s - start)%nat with 0%nat by lia.
    by rewrite substring_none.
  - cbn [seq]. rewrite fmap_cons. cbn [foldr].
    rewrite <- fmap_S_seq, <- list_fmap_compose.
    rewrite (list_fmap_ext _
               (fun k : nat => String.substring (start + step + k * step) step s));
      [|intros _ k _; cbn; f_equal; lia].
    rewrite (IH (start + step)%nat) by lia.
    replace (start + 0 * step)%nat with start by lia.
    destruct (Nat.le_gt_cases (String.length s - start) step) as [Hshort|Hlong].
    + replace (String.length s - (start + step))%nat with 0%nat by lia.
      rewrite substring_none, append_empty_r.
      rewrite (substring_clamp s start step). f_equal. lia.
    + replace (String.length s - start)%nat
        with (step + (String.length s - (start + step)))%nat by lia.
      apply eq_sym, substring_split.
Qed.

(** X7. Chunking loses no character: for [windowSize > overlap >= 0],
    the first [step] characters of every excerpt, put one after the other
    in the order of the excerpts, are the content. *)
Theorem excerpts_cover_content (content : string) (n overlap : Z)
    (excerpts : list string) :
  0 <= overlap -> overlap < n ->
  get_excerpts content n overlap = Ok excerpts ->
  foldr String.append EmptyString
    (map (String.substring 0 (Z.to_nat (n - overlap))) excerpts)
  = content.
Proof.
  intros Hoverlap Hstep Hrun.
  rewrite get_excerpts_windows in Hrun by lia. injection Hrun as <-.
  set (len := Z.of_nat (String.length content)).
  set (step := n - overlap).
  assert (Hpos : 0 < step) by (unfold step; lia).
  pose proof (ceil_div_bounds len step Hpos) as Hceil.
  assert (Hcount : 0 <= ceil_div len step) by (unfold len in *; nia).
  rewrite <- list_fmap_compose.
  rewrite (list_fmap_ext _
             (fun k : nat =>
                String.substring (0 + k * Z.to_nat step) (Z.to_nat step) content)).
  - rewrite stride_pieces by (unfold len in *; nia).
    rewrite Nat.sub_0_r. by apply substring_all.
  - intros i k Hk. apply lookup_seq in Hk as [-> Hlt]. cbn.
    rewrite slice_window by (unfold len in *; nia).
    rewrite substring_prefix. f_equal; unfold step in *; lia.
Qed.

(** *** A document without text *)

(** X8. The import of a new source whose content is empty calls no
    model and returns, whatever the models would answer: the two id maps
    get their entries, the doc id gets an empty list of excerpt ids, no
    excerpt record and no vector record is written, the vector index is
    saved as it is, and the graph that was loaded, which is the empty
    graph when the file was absent or unreadable, is handed unchanged to
    [nx.write_graphml]. *)
Theorem import_empty_document (source : string) (st : State) :
  source_to_doc_id_map st !! source = None ->
  import_document source EmptyString st =
  (Ok tt,
   mkState
     (<[source := make_hash EmptyString "doc_"]> (source_to_doc_id_map st))
     (<[make_hash EmptyString "doc_" := source]> (doc_id_to_source_map st))
     (<[make_hash EmptyString "doc_" := []]> (doc_id_to_excerpt_ids st))
     (excerpt_db st) (embeddings_db st) (embeddings_db st)
     (write_graphml (load_graph (kg_db st))) (clock st)).
Proof.
  intros Hnew. rewrite (import_document_new _ _ _ Hnew). reflexivity.
Qed.

(** *** What a record does to the graph *)

(** [dict.update] with two, and with three, keyword arguments. *)
Lemma dict_update_two (k1 k2 v1 v2 : string) (old : gmap string string) (key : string) :
  k1 <> k2 ->
  (({[ k1 := v1; k2 := v2 ]} : gmap string string) ∪ old) !! key =
  if decide (key = k1) then Some v1
  else if decide (key = k2) then Some v2 else old !! key.
Proof.
  intros Hne. rewrite lookup_union.
  destruct (decide (key = k1)) as [->|H1].
  - rewrite lookup_insert_eq. by destruct (old !! k1).
  - rewrite lookup_insert_ne by done.
    destruct (decide (key = k2)) as [->|H2].
    + rewrite lookup_singleton_eq. by destruct (old !! k2).
    + rewrite lookup_singleton_ne by done. by destruct (old !! key).
Qed.

Lemma dict_update_three (k1 k2 k3 v1 v2 v3 : string) (old : gmap string string) (key : string) :
  (({[ k1 := v1; k2 := v2; k3 := v3 ]} : gmap string string) ∪ old) !! key =
  if decide (key = k1) then Some v1
  else if decide (key = k2) then Some v2
  else if decide (key = k3) then Some v3 else old !! key.
Proof.
  rewrite lookup_union.
  destruct (decide (key = k1)) as [->|H1].
  - rewrite lookup_insert_eq. by destruct (old !! k1).
  - rewrite lookup_insert_ne by done.
    destruct (decide (key = k2)) as [->|H2].
    + rewrite lookup_insert_eq. by destruct (old !! k2).
    + rewrite lookup_insert_ne by done.
      destruct (decide (key = k3)) as [->|H3].
      * rewrite lookup_singleton_eq. by destruct (old !! k3).
      * rewrite lookup_singleton_ne by done. by destruct (old !! key).
Qed.

(** X9. An entity record with at least four fields sets the category and
    the description of its node to the second and third field after the
    name, whatever they were before: the last record for a name wins. The
    other attributes of the node, the other nodes, the edges and the graph
    attributes are as before. *)
Theorem entity_record_overwrites (graph : DiGraph)
    (field0 name category description : string) (rest : list string) :
  Py.lower field0 = quoted "entity" ->
  let graph' :=
    apply_fields graph (field0 :: name :: category :: description :: rest) in
  (nodes graph' !! name) ≫= (.!! "category") = Some category /\
  (nodes graph' !! name) ≫= (.!! "description") = Some description /\
  (forall key,
     key <> "category" -> key <> "description" ->
     (nodes graph' !! name) ≫= (.!! key) = (nodes graph !! name) ≫= (.!! key)) /\
  (forall other, other <> name -> nodes graph' !! other = nodes graph !! other) /\
  edges graph' = edges graph /\
  graph_attrs graph' = graph_attrs graph.
Proof.
  intros Hentity graph'. unfold graph', apply_fields.
  cbv zeta. rewrite Hentity, decide_True by reflexivity.
  unfold add_node, dict_update. cbn [nodes edges graph_attrs].
  rewrite lookup_insert_eq. cbn [mbind option_bind].
  split; [by rewrite dict_update_two|]. split; [by rewrite dict_update_two|].
  split.
  { intros key Hcategory Hdescription. rewrite dict_update_two by done.
    rewrite !decide_False by done. by destruct (nodes graph !! name). }
  split; [intros other Hother; by rewrite lookup_insert_ne|].
  split; reflexivity.
Qed.

(** X10. A relationship record with at least six fields sets the
    description, the keywords and the weight of the edge from its source
    to its target, creating the edge if needed. An endpoint that is not
    yet a node becomes a node without attributes; the nodes there are keep
    their attributes; no other node appears, and no other edge, the
    reverse edge included, changes. *)
Theorem relationship_record_adds_edge (graph : DiGraph)
    (field0 source target description keywords weight : string)
    (rest : list string) :
  Py.lower field0 = quoted "relationship" ->
  let graph' :=
    apply_fields graph
      (field0 :: source :: target :: description :: keywords :: weight :: rest) in
  (edges graph' !! (source, target)) ≫= (.!! "description") = Some description /\
  (edges graph' !! (source, target)) ≫= (.!! "keywords") = Some keywords /\
  (edges graph' !! (source, target)) ≫= (.!! "weight") = Some weight /\
  (forall edge, edge <> (source, target) ->
     edges graph' !! edge = edges graph !! edge) /\
  (forall name,
     nodes graph' !! name =
     match nodes graph !! name with
     | Some attributes => Some attributes
     | None => if decide (name = source \/ name = target) then Some ∅ else None
     end) /\
  graph_attrs graph' = graph_attrs graph.
Proof.
  intros Hrelationship graph'. unfold graph', apply_fields.
  cbv zeta. rewrite Hrelationship.
  rewrite decide_False by (vm_compute; discriminate).
  rewrite decide_True by reflexivity.
  unfold add_edge, add_node, dict_update. cbn [nodes edges graph_attrs].
  rewrite lookup_insert_eq. cbn [mbind option_bind].
  split; [by rewrite dict_update_three|]. split; [by rewrite dict_update_three|].
  split; [by rewrite dict_update_three|].
  split; [intros edge Hedge; by rewrite lookup_insert_ne|].
  split; [|reflexivity].
  intros name. rewrite !(left_id_L ∅ (∪)).
  destruct (decide (target = name)) as [->|Htarget].
  - rewrite lookup_insert_eq.
    destruct (decide (source = name)) as [->|Hsource].
    + rewrite lookup_insert_eq.
      destruct (nodes graph !! name); [reflexivity|].
      cbn. rewrite decide_True; [reflexivity | by left].
    + rewrite lookup_insert_ne by done.
      destruct (nodes graph !! name); [reflexivity|].
      cbn. rewrite decide_True; [reflexivity | by right].
  - rewrite lookup_insert_ne by done.
    destruct (decide (source = name)) as [->|Hsource].
    + rewrite lookup_insert_eq.
      destruct (nodes graph !! name); [reflexivity|].
      cbn. rewrite decide_True; [reflexivity | by left].
    + rewrite lookup_insert_ne by done.
      destruct (nodes graph !! name); [reflexivity|].
      rewrite decide_False; [reflexivity|]. intros [?|?]; congruence.
Qed.

(** [str.lower] applied twice is [str.lower]. *)
Lemma lower_char_idempotent (c : ascii) :
  Py.lower_char (Py.lower_char c) = Py.lower_char c.
Proof. destruct c as [[] [] [] [] [] [] [] []]; vm_compute; reflexivity. Qed.

Lemma lower_idempotent (s : string) : Py.lower (Py.lower s) = Py.lower s.
Proof.
  induction s as [|c s IH]; [reflexivity|]. cbn [Py.lower].
  by rewrite lower_char_idempotent, IH.
Qed.

(** X11. The discriminator of a record is matched without regard to
    case: a record acts on the graph as the same record with field 0 in
    lower case does, so an answer that writes the record types in capitals
    is applied like one that writes them in small letters. *)
Theorem discriminator_ignores_case (graph : DiGraph) (field0 : string)
    (rest : list string) :
  apply_fields graph (field0 :: rest) = apply_fields graph (Py.lower field0 :: rest).
Proof.
  unfold apply_fields. cbv zeta. rewrite lower_idempotent.
  repeat case_decide; try reflexivity;
    destruct rest as [|? [|? [|? [|? [|? ?]]]]]; reflexivity.
Qed.

(** *** More on the embedding leg *)

(** The excerpt record a completed loop leaves under an id is the one
    written for the last excerpt with that id, and its order index is the
    position of that excerpt, counted from [i]. *)
Lemma embed_loop_order (content doc_id : string) (excerpts : list string)
    (i : nat) (st st' : State) (ids : list string) :
  embed_loop content doc_id i excerpts st = (Ok ids, st') ->
  forall id, id ∈ ids ->
    exists record j,
      excerpt_db st' !! id = Some record /\
      x_doc_id record = doc_id /\
      make_hash (x_excerpt record) "excerpt_id_" = id /\
      x_doc_order_index record = (i + j)%nat /\
      excerpts !! j = Some (x_excerpt record) /\
      forall j' excerpt,
        excerpts !! j' = Some excerpt ->
        make_hash excerpt "excerpt_id_" = id -> (j' <= j)%nat.
Proof.
  revert i st st' ids.
  induction excerpts as [|excerpt rest IH]; intros i st st' ids Hrun;
    cbn [embed_loop] in Hrun.
  - injection Hrun as <- <-. intros id Hid. by apply elem_of_nil in Hid.
  - apply bind_ok_inv in Hrun as (excerpt_id & st1 & Hstep & Hrun).
    apply bind_ok_inv in Hrun as (rest_ids & st2 & Hrest & Hret).
    injection Hret as <- <-.
    rewrite embed_excerpt_run in Hstep.
    destruct (get_completion _ _) as [summary|]; [|discriminate].
    destruct (get_embedding _ _) as [vector|]; [|discriminate].
    cbn zeta in Hstep. injection Hstep as <- <-.
    pose proof (IH _ _ _ _ Hrest) as Hlater.
    apply embed_loop_ok in Hrest as (-> & _ & Hother). cbn in Hother.
    intros id Hid.
    destruct (decide (id ∈ excerpt_ids_of rest)) as [Hin|Hnotin].
    + destruct (Hlater id Hin)
        as (record & j & Hrecord & Hdoc & Hhash & Hindex & Hat & Hlast).
      exists record, (S j). repeat (split; [done || lia|]).
      intros [|j'] excerpt' Hat' Hhash'; [lia|].
      cbn in Hat'. apply le_n_S. by eapply Hlast.
    + apply elem_of_cons in Hid as [->|Hid]; [|done].
      destruct (Hother _ Hnotin) as [Hrecord _].
      rewrite lookup_insert_eq in Hrecord.
      eexists _, 0%nat. split; [exact Hrecord|]. cbn.
      repeat (split; [done || lia|]).
      intros [|j'] excerpt' Hat' Hhash'; [lia|].
      cbn in Hat'. exfalso. apply Hnotin. unfold excerpt_ids_of.
      rewrite <- Hhash'.
      apply (list_elem_of_fmap_2
               (fun excerpt => make_hash excerpt "excerpt_id_") rest excerpt').
      by eapply list_elem_of_lookup_2.
Qed.

(** X12. After a completed [embed_document], the excerpt record stored
    under each excerpt id of the content is tagged with the doc id, holds
    an excerpt whose hash is that id, and has as order index the position
    of that excerpt in the list of excerpts, namely the last position at
    which an excerpt with that id occurs. *)
Theorem excerpt_record_order_index (content doc_id : string) (st st' : State) :
  embed_document content doc_id st = (Ok tt, st') ->
  exists excerpts,
    get_excerpts content 2000 200 = Ok excerpts /\
    forall id, id ∈ excerpt_ids_of excerpts ->
      exists record,
        excerpt_db st' !! id = Some record /\
        x_doc_id record = doc_id /\
        make_hash (x_excerpt record) "excerpt_id_" = id /\
        excerpts !! x_doc_order_index record = Some (x_excerpt record) /\
        forall j excerpt,
          excerpts !! j = Some excerpt ->
          make_hash excerpt "excerpt_id_" = id ->
          (j <= x_doc_order_index record)%nat.
Proof.
  unfold embed_document. intros Hrun.
  apply bind_ok_inv in Hrun as (excerpts & st0 & Hlift & Hrun).
  unfold lift in Hlift. apply pair_equal_spec in Hlift as [Hexcerpts <-].
  apply bind_ok_inv in Hrun as (ids & st1 & Hloop & Hrun).
  pose proof (embed_loop_order _ _ _ _ _ _ _ Hloop) as Horder.
  apply embed_loop_ok in Hloop as (-> & _ & _).
  cbn in Hrun. injection Hrun as <-. cbn.
  exists excerpts. split; [exact Hexcerpts|].
  intros id Hid.
  destruct (Horder id Hid)
    as (record & j & Hrecord & Hdoc & Hhash & Hindex & Hat & Hlast).
  exists record. cbn in Hindex. subst j. by repeat (split; [done|]).
Qed.

(** X13. Indexing the same content under the same doc id a second time
    adds no id: when both runs of [embed_document] complete, the vector
    index and the excerpt records have after the second run the ids they
    had after the first, and the lists of excerpt ids are the same. *)
Theorem embed_document_again (content doc_id : string) (st st1 st2 : State) :
  embed_document content doc_id st = (Ok tt, st1) ->
  embed_document content doc_id st1 = (Ok tt, st2) ->
  dom (embeddings_db st2) = dom (embeddings_db st1) /\
  dom (excerpt_db st2) = dom (excerpt_db st1) /\
  doc_id_to_excerpt_ids st2 = doc_id_to_excerpt_ids st1.
Proof.
  intros Hfirst Hsecond.
  apply embed_document_ok in Hfirst
    as (excerpts & Hexcerpts & Hlist1 & _ & Htagged1 & _).
  apply embed_document_ok in Hsecond
    as (excerpts' & Hexcerpts' & Hlist2 & _ & Htagged2 & Hother2).
  assert (excerpts' = excerpts) as -> by congruence.
  split; [|split].
  - apply set_eq. intros key. rewrite !elem_of_dom.
    destruct (decide (key ∈ excerpt_ids_of excerpts)) as [Hin|Hnotin].
    + destruct (Htagged1 _ Hin) as [_ (r1 & -> & _)].
      destruct (Htagged2 _ Hin) as [_ (r2 & -> & _)]. split; by eexists.
    + by destruct (Hother2 _ Hnotin) as [_ ->].
  - apply set_eq. intros key. rewrite !elem_of_dom.
    destruct (decide (key ∈ excerpt_ids_of excerpts)) as [Hin|Hnotin].
    + destruct (Htagged1 _ Hin) as [(r1 & -> & _) _].
      destruct (Htagged2 _ Hin) as [(r2 & -> & _) _]. split; by eexists.
    + by destruct (Hother2 _ Hnotin) as [-> _].
  - rewrite Hlist2, Hlist1. apply insert_insert_eq.
Qed.

(** *** A new source, and its removal *)

(** What a completed [index_new_content] has written, and what it has
    left alone. *)
Lemma index_new_content_ok_stores (source content : string) (st st' : State) :
  index_new_content source content st = (Ok tt, st') ->
  exists excerpts,
    get_excerpts content 2000 200 = Ok excerpts /\
    doc_id_to_excerpt_ids st' =
      <[make_hash content "doc_" := excerpt_ids_of excerpts]>
        (doc_id_to_excerpt_ids st) /\
    (forall id, id ∈ excerpt_ids_of excerpts ->
       is_Some (excerpt_db st' !! id) /\ is_Some (embeddings_db st' !! id)) /\
    (forall key, key ∉ excerpt_ids_of excerpts ->
       excerpt_db st' !! key = excerpt_db st !! key /\
       embeddings_db st' !! key = embeddings_db st !! key).
Proof.
  rewrite index_new_content_run. intros Hrun.
  apply bind_ok_inv in Hrun as ([] & st_e & Hembed & Hextract).
  pose proof (extract_entities_unchanged doc_id_to_excerpt_ids content
                (make_hash content "doc_") ltac:(done) ltac:(done) st_e) as Hids.
  pose proof (extract_entities_unchanged excerpt_db content
                (make_hash content "doc_") ltac:(done) ltac:(done) st_e) as Hexc.
  pose proof (extract_entities_unchanged embeddings_db content
                (make_hash content "doc_") ltac:(done) ltac:(done) st_e) as Hdb.
  rewrite Hextract in Hids, Hexc, Hdb. cbn in Hids, Hexc, Hdb.
  apply embed_document_ok in Hembed
    as (excerpts & Hexcerpts & Hlist & _ & Htagged & Hother).
  exists excerpts. split; [exact Hexcerpts|].
  rewrite Hids, Hexc, Hdb, Hlist. split; [reflexivity|]. split.
  - intros id Hid.
    destruct (Htagged id Hid) as [(r1 & -> & _) (r2 & -> & _)].
    split; by eexists.
  - exact Hother.
Qed.

(** X14. Importing a new source and then removing its document gives the
    maps and the index back. Let the source be new, let its doc id be a
    key of neither map keyed by doc id, and let none of the excerpt ids of
    its content have an excerpt record or a vector record. If the import
    returns, [remove_document_by_id] on the doc id leaves the three id
    maps, the excerpt records and the vector index exactly as they were
    before the import. *)
Theorem import_then_remove (source content : string) (st st1 : State) :
  source_to_doc_id_map st !! source = None ->
  doc_id_to_source_map st !! make_hash content "doc_" = None ->
  doc_id_to_excerpt_ids st !! make_hash content "doc_" = None ->
  (forall excerpts id,
     get_excerpts content 2000 200 = Ok excerpts ->
     id ∈ excerpt_ids_of excerpts ->
     excerpt_db st !! id = None /\ embeddings_db st !! id = None) ->
  import_document source content st = (Ok tt, st1) ->
  let st2 := (remove_document_by_id (make_hash content "doc_") st1).2 in
  source_to_doc_id_map st2 = source_to_doc_id_map st /\
  doc_id_to_source_map st2 = doc_id_to_source_map st /\
  doc_id_to_excerpt_ids st2 = doc_id_to_excerpt_ids st /\
  excerpt_db st2 = excerpt_db st /\
  embeddings_db st2 = embeddings_db st.
Proof.
  intros Hnew Hno_source Hno_ids Hfresh Himport st2.
  rewrite (import_document_new _ _ _ Hnew) in Himport.
  destruct (index_new_content_maps source content st) as [Hs2d Hd2s].
  rewrite Himport in Hs2d, Hd2s. cbn in Hs2d, Hd2s.
  apply index_new_content_ok_stores in Himport
    as (excerpts & Hexcerpts & Hlist & Hwritten & Hother).
  destruct (remove_document_by_id_run (make_hash content "doc_") st1)
    as (_ & Hs2d2 & Hd2s2 & Hd2e2 & Hexc2 & Hdb2 & _).
  fold st2 in Hs2d2, Hd2s2, Hd2e2, Hexc2, Hdb2.
  rewrite Hd2s, lookup_insert_eq in Hs2d2.
  rewrite Hlist, lookup_insert_eq in Hexc2, Hdb2. cbn in Hexc2.
  split; [rewrite Hs2d2, Hs2d; by apply delete_insert_id|].
  split; [rewrite Hd2s2, Hd2s; by apply delete_insert_id|].
  split; [rewrite Hd2e2, Hlist; by apply delete_insert_id|].
  split.
  - rewrite Hexc2. apply map_eq. intros key. rewrite lookup_foldl_delete.
    destruct (decide (key ∈ excerpt_ids_of excerpts)) as [Hin|Hnotin].
    + by destruct (Hfresh excerpts key Hexcerpts Hin) as [-> _].
    + by destruct (Hother key Hnotin) as [-> _].
  - rewrite Hdb2. apply map_eq. intros key.
    destruct (decide (key ∈ excerpt_ids_of excerpts)) as [Hin|Hnotin].
    + destruct (Hfresh excerpts key Hexcerpts Hin) as [_ ->].
      apply map_lookup_filter_None. right. intros record _ Hnot. by apply Hnot.
    + destruct (Hother key Hnotin) as [_ <-].
      destruct (embeddings_db st1 !! key) as [record|] eqn:Hrecord.
      * by apply map_lookup_filter_Some.
      * apply map_lookup_filter_None. by left.
Qed.

Lemma unchanged_preserves {T A : Type} (proj : State -> T) (Q : T -> Prop)
    (m : M A) :
  unchanged proj m -> preserves (fun st => Q (proj st)) m.
Proof. intros Hm st HQ. by rewrite Hm. Qed.

(** The embedding leg takes no key out of the excerpt records or of the
    vector index, whether it returns or raises. *)
Lemma embed_loop_keeps_keys (content doc_id : string) (excerpts : list string)
    (i : nat) (key : string) :
  preserves (fun st => is_Some (excerpt_db st !! key)) (embed_loop content doc_id i excerpts) /\
  preserves (fun st => is_Some (embeddings_db st !! key)) (embed_loop content doc_id i excerpts).
Proof.
  revert i. induction excerpts as [|excerpt rest IH]; intros i;
    cbn [embed_loop]; [split; intros st H; exact H|].
  assert (Hstep :
    preserves (fun st => is_Some (excerpt_db st !! key))
      (embed_excerpt content doc_id i excerpt) /\
    preserves (fun st => is_Some (embeddings_db st !! key))
      (embed_excerpt content doc_id i excerpt)).
  { split; intros st Hkey; rewrite embed_excerpt_run;
      destruct (get_completion _ _) as [summary|]; [|exact Hkey| |exact Hkey];
      destruct (get_embedding _ _) as [vector|]; [|exact Hkey| |exact Hkey];
      cbn; rewrite lookup_insert; case_decide; [by eexists | exact Hkey
                                               |by eexists | exact Hkey]. }
  destruct Hstep as [Hexc Hdb]. destruct (IH (S i)) as [IHexc IHdb].
  split.
  - apply preserves_bind; [exact Hexc | intros excerpt_id].
    apply preserves_bind; [exact IHexc | intros excerpt_ids st H; exact H].
  - apply preserves_bind; [exact Hdb | intros excerpt_id].
    apply preserves_bind; [exact IHdb | intros excerpt_ids st H; exact H].
Qed.

(** X15. The import of a new source takes nothing away, whether it
    returns or raises: the entries of the other sources, the entries of
    the other doc ids in the two maps keyed by doc id, and the keys of the
    excerpt records and of the vector index are all still there. *)
Theorem import_new_source_only_adds (source content : string) (st : State) :
  source_to_doc_id_map st !! source = None ->
  let st' := (import_document source content st).2 in
  (forall other, other <> source ->
     source_to_doc_id_map st' !! other = source_to_doc_id_map st !! other) /\
  (forall other, other <> make_hash content "doc_" ->
     doc_id_to_source_map st' !! other = doc_id_to_source_map st !! other /\
     doc_id_to_excerpt_ids st' !! other = doc_id_to_excerpt_ids st !! other) /\
  (forall key, is_Some (excerpt_db st !! key) -> is_Some (excerpt_db st' !! key)) /\
  (forall key, is_Some (embeddings_db st !! key) ->
               is_Some (embeddings_db st' !! key)).
Proof.
  intros Hnew st'. unfold st'. rewrite (import_document_new _ _ _ Hnew).
  destruct (index_new_content_maps source content st) as [Hs2d Hd2s].
  split; [intros other Hother; rewrite Hs2d; by apply lookup_insert_ne|].
  split.
  { intros other Hother. split.
    - rewrite Hd2s. by apply lookup_insert_ne.
    - apply (index_new_content_other_ids source content other Hother st). }
  assert (Hkeys : forall key,
    preserves (fun s => is_Some (excerpt_db s !! key))
      (index_new_content source content) /\
    preserves (fun s => is_Some (embeddings_db s !! key))
      (index_new_content source content)).
  { intros key. unfold index_new_content, embed_document.
    split.
    - apply preserves_bind;
        [apply (unchanged_preserves excerpt_db (fun m => is_Some (m !! key)));
         by apply add_document_maps_unchanged | intros _].
      apply preserves_bind;
        [|intros _;
          apply (unchanged_preserves excerpt_db (fun m => is_Some (m !! key)));
          by apply extract_entities_unchanged].
      apply preserves_bind; [intros s H; exact H | intros excerpts].
      apply preserves_bind;
        [apply embed_loop_keeps_keys | intros excerpt_ids s H; exact H].
    - apply preserves_bind;
        [apply (unchanged_preserves embeddings_db (fun m => is_Some (m !! key)));
         by apply add_document_maps_unchanged | intros _].
      apply preserves_bind;
        [|intros _;
          apply (unchanged_preserves embeddings_db (fun m => is_Some (m !! key)));
          by apply extract_entities_unchanged].
      apply preserves_bind; [intros s H; exact H | intros excerpts].
      apply preserves_bind;
        [apply embed_loop_keeps_keys | intros excerpt_ids s H; exact H]. }
  split; intros key; by apply Hkeys.
Qed.

(** *** When a leg raises *)

(** [embed_document] raises only from its loop, before the index is
    saved and the excerpt ids are listed. *)
Lemma embed_document_raise (content doc_id : string) (st : State) (e : exn) :
  (embed_document content doc_id st).1 = Raise e ->
  exists excerpts,
    get_excerpts content 2000 200 = Ok excerpts /\
    embed_document content doc_id st =
      (Raise e, (embed_loop content doc_id 0 excerpts st).2).
Proof.
  destruct (get_excerpts_default_ok content) as [excerpts Hexcerpts].
  intros Hraise. exists excerpts. split; [exact Hexcerpts|].
  unfold embed_document, bind, lift in *. rewrite Hexcerpts in *.
  destruct (embed_loop content doc_id 0 excerpts st) as [[ids|e'] st1];
    cbn in *; [discriminate | congruence].
Qed.

(** X19. When [embed_document] raises, it has neither saved the vector
    index nor listed excerpt ids for the doc id: the index file and the
    doc-id-to-excerpt-ids map are as before, although the excerpt records
    written so far stay. A restart of the process then reads back the
    index the file held, without the vector records of that run. *)
Theorem embed_document_raise_unsaved (content doc_id : string) (st : State)
    (e : exn) :
  (embed_document content doc_id st).1 = Raise e ->
  let st' := (embed_document content doc_id st).2 in
  embeddings_file st' = embeddings_file st /\
  doc_id_to_excerpt_ids st' = doc_id_to_excerpt_ids st /\
  embeddings_db (restart st') = embeddings_file st /\
  excerpt_db (restart st') = excerpt_db st' /\
  forall key, is_Some (excerpt_db st !! key) -> is_Some (excerpt_db st' !! key).
Proof.
  intros Hraise st'. unfold st'.
  destruct (embed_document_raise content doc_id st e Hraise)
    as (excerpts & _ & ->). cbn [snd].
  assert (Hfile : embeddings_file (embed_loop content doc_id 0 excerpts st).2
                  = embeddings_file st)
    by (by apply (embed_loop_unchanged embeddings_file)).
  split; [exact Hfile|].
  split; [by apply (embed_loop_unchanged doc_id_to_excerpt_ids)|].
  split; [exact Hfile|]. split; [reflexivity|].
  intros key. apply embed_loop_keeps_keys.
Qed.

(** X20. A document whose import raised is not taken up again. When
    [import_document] raises, the graph file is as it was before, so
    nothing of the document has reached the graph; yet the source is
    already mapped to the hash of the content, so importing the same
    content again returns at once and changes nothing. *)
Theorem import_raised_not_retried (source content : string) (st : State)
    (e : exn) :
  (import_document source content st).1 = Raise e ->
  let st' := (import_document source content st).2 in
  kg_db st' = kg_db st /\
  source_to_doc_id_map st' !! source = Some (make_hash content "doc_") /\
  import_document source content st' = (Ok tt, st').
Proof.
  intros Hraise st'.
  assert (Hrecorded : source_to_doc_id_map st' !! source
                      = Some (make_hash content "doc_"))
    by apply import_document_records_source.
  split; [|split; [exact Hrecorded | by apply import_document_skip]].
  assert (Hindex : forall st0,
            (index_new_content source content st0).1 = Raise e ->
            kg_db (index_new_content source content st0).2 = kg_db st0).
  { intros st0. rewrite index_new_content_run.
    set (st_m := (add_document_maps source content st0).2).
    pose proof (embed_document_unchanged kg_db content (make_hash content "doc_")
                  ltac:(done) ltac:(done) ltac:(done) ltac:(done) ltac:(done)
                  st_m) as Hembed.
    unfold bind.
    destruct (embed_document content (make_hash content "doc_") st_m)
      as [[[]|e1] st_e]; cbn in Hembed; [|intros _; exact Hembed].
    rewrite <- Hembed.
    destruct (extract_entities_run content (make_hash content "doc_") st_e)
      as (excerpts & _ & ->).
    pose proof (extract_loop_same_stores excerpts (load_graph (kg_db st_e)) st_e)
      as (_ & _ & _ & _ & _ & _ & Hkg).
    destruct (extract_loop excerpts (load_graph (kg_db st_e)) st_e)
      as [[graph|e2] st1]; cbn in *; [discriminate | intros _; exact Hkg]. }
  unfold st' in *. clear Hrecorded.
  destruct (source_to_doc_id_map st !! source) as [old_doc_id|] eqn:Hsource.
  - destruct (decide (old_doc_id = make_hash content "doc_")) as [->|Hne].
    + rewrite import_document_skip in Hraise by done. discriminate.
    + rewrite (import_document_update _ _ _ _ Hsource Hne) in *.
      rewrite (Hindex _ Hraise).
      by destruct (remove_document_by_id_run old_doc_id st)
        as (_ & _ & _ & _ & _ & _ & _ & Hkg & _).
  - rewrite (import_document_new _ _ _ Hsource) in *. by apply Hindex.
Qed.

End MiniRag.

(** ** Scenario B: one answer, two entities and one relationship *)

Lemma scenario_B_records :
  parse_records split_at_markers trim_record scenario_B_response =
  [ quoted "entity" +:+ "<|>" +:+ quoted "Rabbit" +:+ "<|>" +:+ quoted "Animal"
      +:+ "<|>" +:+ quoted "A small mammal";
    quoted "entity" +:+ "<|>" +:+ quoted "Carrot" +:+ "<|>" +:+ quoted "Food"
      +:+ "<|>" +:+ quoted "A root vegetable";
    quoted "relationship" +:+ "<|>" +:+ quoted "Rabbit" +:+ "<|>"
      +:+ quoted "Carrot" +:+ "<|>" +:+ quoted "eats" +:+ "<|>"
      +:+ quoted "diet" +:+ "<|>" +:+ quoted "0.9" ].
Proof. vm_compute. reflexivity. Qed.

Lemma scenario_B_applied :
  apply_records split_at_markers
    (parse_records split_at_markers trim_record scenario_B_response)
    empty_graph
  = scenario_B_graph.
Proof. vm_compute. reflexivity. Qed.

(** C4. Let a content be a single excerpt, let the graph the extraction
    starts from be empty, and let the model answer the extraction prompt
    of that excerpt with the text of scenario B. Then [extract_entities]
    returns, and the graph it has built and hands to [nx.write_graphml]
    has exactly two nodes, the Rabbit entity and the Carrot entity with
    their category and description, and exactly one edge, from the Rabbit
    node to the Carrot node, whose weight attribute is the text ["0.9"],
    quotes included; the names of the nodes carry their quotes too. Here
    the two helpers of [app.utilities] are the ones modelled from the
    specification. *)
Theorem scenario_B_extracted {Vector Time : Type}
    (get_extract_entities_prompt : string -> string)
    (get_completion : nat -> string -> option string)
    (write_graphml : DiGraph -> KgFile)
    (content doc_id : string) (st : @State Vector Time) :
  (0 < String.length content <= 1800)%nat ->
  load_graph (kg_db st) = empty_graph ->
  get_completion (clock st) (get_extract_entities_prompt content)
    = Some scenario_B_response ->
  exists graph,
    extract_entities get_extract_entities_prompt split_at_markers trim_record
      get_completion write_graphml content doc_id st
    = (Ok tt, set_kg_db (write_graphml graph) (tick st)) /\
    dom (nodes graph) = {[ quoted "Rabbit"; quoted "Carrot" ]} /\
    size (nodes graph) = 2%nat /\
    nodes graph !! quoted "Rabbit"
      = Some {[ "category" := quoted "Animal";
                "description" := quoted "A small mammal" ]} /\
    nodes graph !! quoted "Carrot"
      = Some {[ "category" := quoted "Food";
                "description" := quoted "A root vegetable" ]} /\
    dom (edges graph) = {[ (quoted "Rabbit", quoted "Carrot") ]} /\
    size (edges graph) = 1%nat /\
    (edges graph !! (quoted "Rabbit", quoted "Carrot")) ≫= (.!! "weight")
      = Some (quoted "0.9") /\
    graph_attrs graph = ∅.
Proof.
  intros Hsingle Hempty Hanswer. exists scenario_B_graph. split.
  - unfold extract_entities. unfold bind at 1. unfold lift.
    rewrite (get_excerpts_single content Hsingle).
    unfold bind at 1. cbn [fst snd]. unfold bind at 1.
    cbn [extract_loop]. unfold bind at 1. unfold call at 1.
    rewrite Hanswer, Hempty, scenario_B_applied. reflexivity.
  - repeat split; vm_compute; reflexivity.
Qed.

(** ** Chunking parameters with a non-positive step *)

(** C7 fails as stated: with an overlap above the window size the call
    returns the empty list instead of raising. *)
Lemma get_excerpts_negative_step_returns :
  3 >= 2 /\ get_excerpts "abc" 2 3 = Ok [] /\
  ~ (exists e, get_excerpts "abc" 2 3 = Raise e).
Proof.
  split; [lia|]. split; [reflexivity|]. intros [e He]. discriminate He.
Qed.

(** C7, amended. With an overlap equal to the window size the step is
    zero and [get_excerpts] raises [ValueError], from [range], before any
    excerpt is cut. With an overlap above the window size the step is
    negative, [range] has nothing to visit, and [get_excerpts] returns
    the empty list without raising. *)
Theorem get_excerpts_nonpositive_step (content : string) (n overlap : Z) :
  overlap >= n ->
  (overlap = n -> get_excerpts content n overlap = Raise ValueError) /\
  (overlap > n -> get_excerpts content n overlap = Ok []).
Proof.
  intros Hge. unfold get_excerpts, Py.range. split.
  - intros ->. by rewrite Z.sub_diag.
  - intros Hgt.
    destruct (Z.eqb_spec (n - overlap) 0) as [?|_]; [lia|].
    destruct (Z.ltb_spec 0 (n - overlap)) as [?|_]; [lia|].
    rewrite range_down_empty by lia. reflexivity.
Qed.

(** ** The properties on a sample deployment *)

(** The operations with the sample collaborators: a hash that is the
    prefix followed by the content, a completion model that extracts
    nothing, an embedding model that always answers, and a graph file
    written and read without loss. *)
Abbreviation sample_remove_document_by_id :=
  (remove_document_by_id (Vector := nat) (Time := nat)) (only parsing).
Abbreviation sample_embed_loop :=
  (embed_loop (Vector := nat) (Time := nat) sample_hash sample_summary_prompt
     quiet_completion steady_embedding sample_time) (only parsing).
Abbreviation sample_embed_document :=
  (embed_document (Vector := nat) (Time := nat) sample_hash
     sample_summary_prompt quiet_completion steady_embedding sample_time)
  (only parsing).
Abbreviation sample_import_document :=
  (import_document (Vector := nat) (Time := nat) sample_hash
     sample_summary_prompt sample_extract_prompt split_at_markers trim_record
     quiet_completion steady_embedding sample_time sample_write_graphml)
  (only parsing).
Abbreviation sample_run_operations :=
  (run_operations (Vector := nat) (Time := nat) sample_hash
     sample_summary_prompt sample_extract_prompt split_at_markers trim_record
     quiet_completion steady_embedding sample_time sample_write_graphml)
  (only parsing).

(** The state after the first import of a source [a.txt] that holds [x]. *)
Abbreviation state_after_first_import :=
  (sample_import_document "a.txt" "x" initial_state).2 (only parsing).

Lemma state_after_first_import_maps :
  source_to_doc_id_map state_after_first_import !! "a.txt" = Some "doc_x" /\
  doc_id_to_source_map state_after_first_import !! "doc_x" = Some "a.txt" /\
  doc_id_to_excerpt_ids state_after_first_import !! "doc_x"
    = Some ["excerpt_id_x"].
Proof. repeat split; vm_compute; reflexivity. Qed.



(** Witness of C2: [a.txt] still holds [x]. *)
Lemma import_unchanged_source_noop_witness :
  source_to_doc_id_map state_after_first_import !! "a.txt"
    = Some (sample_hash "x" "doc_") /\
  sample_import_document "a.txt" "x" state_after_first_import
    = (Ok tt, state_after_first_import).
Proof.
  assert (Hsame : source_to_doc_id_map state_after_first_import !! "a.txt"
                  = Some (sample_hash "x" "doc_")) by (vm_compute; reflexivity).
  split; [exact Hsame|].
  exact (proj1 (import_unchanged_source_noop sample_hash sample_summary_prompt
                  sample_extract_prompt split_at_markers trim_record
                  quiet_completion steady_embedding sample_time sample_write_graphml
                  "a.txt" "x" [] state_after_first_import) Hsame).
Defined.

(** C3 fails as stated: [a.txt] is imported holding [x], then [b.txt]
    with the same content, which records [b.txt] for their common doc id.
    Removing that doc id deletes the entry of [b.txt] and the excerpts,
    and leaves [a.txt] mapped to the removed doc id. *)
Lemma remove_document_by_id_leaves_source :
  source_to_doc_id_map
    (sample_run_operations
       [Import [("a.txt", "x")]; Import [("a.txt", "x"); ("b.txt", "x")]]
       initial_state) !! "a.txt" = Some "doc_x" /\
  (sample_remove_document_by_id "doc_x"
     (sample_run_operations
        [Import [("a.txt", "x")]; Import [("a.txt", "x"); ("b.txt", "x")]]
        initial_state)).1 = Ok tt /\
  source_to_doc_id_map
    (sample_remove_document_by_id "doc_x"
       (sample_run_operations
          [Import [("a.txt", "x")]; Import [("a.txt", "x"); ("b.txt", "x")]]
          initial_state)).2 !! "b.txt" = None /\
  source_to_doc_id_map
    (sample_remove_document_by_id "doc_x"
       (sample_run_operations
          [Import [("a.txt", "x")]; Import [("a.txt", "x"); ("b.txt", "x")]]
          initial_state)).2 !! "a.txt" = Some "doc_x" /\
  doc_id_to_excerpt_ids
    (sample_remove_document_by_id "doc_x"
       (sample_run_operations
          [Import [("a.txt", "x")]; Import [("a.txt", "x"); ("b.txt", "x")]]
          initial_state)).2 !! "doc_x" = None /\
  excerpt_db
    (sample_remove_document_by_id "doc_x"
       (sample_run_operations
          [Import [("a.txt", "x")]; Import [("a.txt", "x"); ("b.txt", "x")]]
          initial_state)).2 !! "excerpt_id_x" = None.
Proof. repeat split; vm_compute; reflexivity. Qed.

(** Witness of C3: the document of [a.txt] is removed. *)
Lemma remove_document_by_id_correct_witness :
  (sample_remove_document_by_id "doc_x" state_after_first_import).1 = Ok tt /\
  source_to_doc_id_map
    (sample_remove_document_by_id "doc_x" state_after_first_import).2 !! "a.txt"
    = None /\
  excerpt_db
    (sample_remove_document_by_id "doc_x" state_after_first_import).2
    !! "excerpt_id_x" = None /\
  embeddings_file
    (sample_remove_document_by_id "doc_x" state_after_first_import).2
    !! "excerpt_id_x" = None /\
  ("excerpt_id_x" ∉
     query_ids sample_similarity sample_score_lt 7%nat 5 0%nat
       (sample_remove_document_by_id "doc_x" state_after_first_import).2) /\
  ("excerpt_id_x" ∉
     query_ids sample_similarity sample_score_lt 7%nat 5 0%nat
       (restart
          (sample_remove_document_by_id "doc_x" state_after_first_import).2)) /\
  (forall source,
     source_to_doc_id_map
       (sample_remove_document_by_id "doc_x" state_after_first_import).2
       !! source <> Some "doc_x").
Proof.
  destruct (remove_document_by_id_correct sample_similarity sample_score_lt
              "doc_x" state_after_first_import)
    as (Hok & _ & _ & Hsource & Hexcerpts & _ & _ & _ & Hnone).
  assert (Hrecorded : doc_id_to_source_map state_after_first_import !! "doc_x"
                      = Some "a.txt") by (vm_compute; reflexivity).
  assert (Hlisted : doc_id_to_excerpt_ids state_after_first_import !! "doc_x"
                    = Some ["excerpt_id_x"]) by (vm_compute; reflexivity).
  assert (Hmap : source_to_doc_id_map state_after_first_import
                 = {[ "a.txt" := "doc_x" ]}) by (vm_compute; reflexivity).
  assert (Honly : forall source,
            source_to_doc_id_map state_after_first_import !! source
            = Some "doc_x" ->
            doc_id_to_source_map state_after_first_import !! "doc_x"
            = Some source).
  { intros source Hsource'. rewrite Hmap in Hsource'.
    apply lookup_singleton_Some in Hsource' as [<- _]. exact Hrecorded. }
  destruct (Hexcerpts ["excerpt_id_x"] "excerpt_id_x" Hlisted
              (list_elem_of_here _ _)) as (Hrecord & _ & Hsaved & Hquery).
  destruct (Hquery 7%nat 5%nat 0%nat) as [Hnow Hlater].
  split; [exact Hok|]. split; [exact (Hsource "a.txt" Hrecorded)|].
  split; [exact Hrecord|]. split; [exact Hsaved|].
  split; [exact Hnow|]. split; [exact Hlater | exact (Hnone Honly)].
Defined.

(** Witness of C4: a short document about rabbits. *)
Lemma scenario_B_extracted_witness :
  exists graph,
    extract_entities (Vector := nat) (Time := nat) sample_extract_prompt
      split_at_markers trim_record rabbit_completion sample_write_graphml
      "Rabbits eat carrots." "doc_rabbits" initial_state
    = (Ok tt, set_kg_db (sample_write_graphml graph) (tick initial_state)) /\
    size (nodes graph) = 2%nat /\
    size (edges graph) = 1%nat /\
    (edges graph !! (quoted "Rabbit", quoted "Carrot")) ≫= (.!! "weight")
      = Some (quoted "0.9").
Proof.
  destruct (scenario_B_extracted (Vector := nat) (Time := nat)
              sample_extract_prompt rabbit_completion sample_write_graphml
              "Rabbits eat carrots." "doc_rabbits" initial_state
              ltac:(cbn; lia) eq_refl eq_refl)
    as (graph & Hrun & _ & Hnodes & _ & _ & _ & Hedges & Hweight & _).
  exists graph. split; [exact Hrun|]. split; [exact Hnodes|].
  split; [exact Hedges | exact Hweight].
Defined.

(** Witness of C5: an entity record with two fields between two
    well-formed records. *)
Lemma malformed_record_dropped_witness :
  dropped (split_at_markers (quoted "entity" +:+ "<|>" +:+ quoted "Hare")
             [FIELD_DELIMITER]) = true /\
  apply_records split_at_markers
    ([quoted "entity" +:+ "<|>" +:+ quoted "Rabbit" +:+ "<|>" +:+ quoted "Animal"
        +:+ "<|>" +:+ quoted "A small mammal"]
     ++ (quoted "entity" +:+ "<|>" +:+ quoted "Hare")
     :: [quoted "content_keywords" +:+ "<|>" +:+ quoted "diet"])
    empty_graph
  = apply_records split_at_markers
      ([quoted "entity" +:+ "<|>" +:+ quoted "Rabbit" +:+ "<|>" +:+ quoted "Animal"
          +:+ "<|>" +:+ quoted "A small mammal"]
       ++ [quoted "content_keywords" +:+ "<|>" +:+ quoted "diet"])
      empty_graph.
Proof.
  assert (Hshort : dropped (split_at_markers
                              (quoted "entity" +:+ "<|>" +:+ quoted "Hare")
                              [FIELD_DELIMITER]) = true)
    by (vm_compute; reflexivity).
  split; [exact Hshort|].
  exact (proj1 (proj2 (malformed_record_dropped (Vector := nat) (Time := nat)
                         sample_extract_prompt split_at_markers trim_record
                         quiet_completion sample_write_graphml _ _ _
                         empty_graph "x" "doc_x"
                         initial_state Hshort))).
Defined.

(** C6 fails as stated: a content of 3800 equal characters has three
    excerpts, the first two of which are the same text and so have the
    same id; indexing it from an empty index leaves two records. *)
Lemma chunk_and_index_repeated_excerpt :
  (exists excerpts,
     get_excerpts (repeat_char "a" 3800) 2000 200 = Ok excerpts /\
     length excerpts = 3%nat) /\
  (sample_embed_document (repeat_char "a" 3800) "doc" initial_state).1 = Ok tt /\
  size (embeddings_db (initial_state (Vector := nat) (Time := nat))) = 0%nat /\
  size (embeddings_db
          (sample_embed_document (repeat_char "a" 3800) "doc" initial_state).2)
    = 2%nat.
Proof.
  split; [eexists; split; vm_compute; reflexivity|].
  split; [vm_compute; reflexivity|].
  split; vm_compute; reflexivity.
Qed.

(** Witness of C6: a content of ten characters cut with a window of four
    and an overlap of one, and the same content indexed. *)
Lemma chunk_and_index_witness :
  (exists excerpts,
     get_excerpts "abcdefghij" 4 1 = Ok excerpts /\
     Z.of_nat (length excerpts) = ceil_div 10 3) /\
  (exists excerpts,
     get_excerpts "abcdefghij" 2000 200 = Ok excerpts /\
     doc_id_to_excerpt_ids
       (sample_embed_document "abcdefghij" "doc" initial_state).2 !! "doc"
     = Some (excerpt_ids_of sample_hash excerpts) /\
     size (embeddings_db
             (sample_embed_document "abcdefghij" "doc" initial_state).2)
     = (size (embeddings_db (initial_state (Vector := nat) (Time := nat)))
        + length excerpts)%nat).
Proof.
  destruct (chunk_and_index sample_hash sample_summary_prompt quiet_completion
              steady_embedding sample_time "abcdefghij" 4 1 "doc" initial_state
              (sample_embed_document "abcdefghij" "doc" initial_state).2
              ltac:(lia) ltac:(lia))
    as [(excerpts & Hcut & Hcount & _) Hindex].
  split; [exists excerpts; split; [exact Hcut | exact Hcount]|].
  destruct (Hindex ltac:(vm_compute; reflexivity))
    as (indexed & Hexcerpts & Hlist & _ & _ & Hsize).
  exists indexed. split; [exact Hexcerpts|]. split; [exact Hlist|].
  apply Hsize.
  - assert (Hone : get_excerpts "abcdefghij" 2000 200 = Ok ["abcdefghij"])
      by (vm_compute; reflexivity).
    rewrite Hone in Hexcerpts. injection Hexcerpts as <-.
    apply NoDup_singleton.
  - intros id _. reflexivity.
Defined.

(** Witness of C7: a window of two with an overlap of two, then of three. *)
Lemma get_excerpts_nonpositive_step_witness :
  get_excerpts "abc" 2 2 = Raise ValueError /\ get_excerpts "abc" 2 3 = Ok [].
Proof.
  split.
  - apply (get_excerpts_nonpositive_step "abc" 2 2); lia.
  - apply (get_excerpts_nonpositive_step "abc" 2 3); lia.
Defined.

(** C8 fails as stated: after the import of two sources with the same
    content, [a.txt] is mapped to the doc id of that content while the doc
    id is mapped to [b.txt]. *)
Lemma id_maps_not_inverse :
  source_to_doc_id_map (Vector := nat) (Time := nat) initial_state = ∅ /\
  doc_id_to_source_map (Vector := nat) (Time := nat) initial_state = ∅ /\
  source_to_doc_id_map
    (sample_run_operations [Import [("a.txt", "x"); ("b.txt", "x")]]
       initial_state) !! "a.txt" = Some "doc_x" /\
  doc_id_to_source_map
    (sample_run_operations [Import [("a.txt", "x"); ("b.txt", "x")]]
       initial_state) !! "doc_x" = Some "b.txt" /\
  doc_id_to_source_map
    (sample_run_operations [Import [("a.txt", "x"); ("b.txt", "x")]]
       initial_state) !! "doc_x" <> Some "a.txt".
Proof.
  split; [reflexivity|]. split; [reflexivity|].
  split; [vm_compute; reflexivity|]. split; [vm_compute; reflexivity|].
  vm_compute. discriminate.
Qed.

(** Witness of C8: two sources are imported, one is updated and the
    document of the other is removed. *)
Lemma id_maps_after_operations_witness :
  (doc_id_to_source_map
     (sample_run_operations
        [Import [("a.txt", "x"); ("b.txt", "y")]; Import [("a.txt", "z")];
         Remove "doc_y"] initial_state) !! "doc_z" = Some "a.txt" ->
   source_to_doc_id_map
     (sample_run_operations
        [Import [("a.txt", "x"); ("b.txt", "y")]; Import [("a.txt", "z")];
         Remove "doc_y"] initial_state) !! "a.txt" = Some "doc_z") /\
  (source_to_doc_id_map
     (sample_run_operations
        [Import [("a.txt", "x"); ("b.txt", "y")]; Import [("a.txt", "z")];
         Remove "doc_y"] initial_state) !! "a.txt" = Some "doc_z" <->
   doc_id_to_source_map
     (sample_run_operations
        [Import [("a.txt", "x"); ("b.txt", "y")]; Import [("a.txt", "z")];
         Remove "doc_y"] initial_state) !! "doc_z" = Some "a.txt").
Proof.
  destruct (id_maps_after_operations sample_hash sample_summary_prompt
              sample_extract_prompt split_at_markers trim_record
              quiet_completion steady_embedding sample_time sample_write_graphml
              [Import [("a.txt", "x"); ("b.txt", "y")]; Import [("a.txt", "z")];
               Remove "doc_y"] initial_state eq_refl eq_refl)
    as [Hmirror Hinverse].
  split; [apply Hmirror|]. apply Hinverse.
  intros source1 content1 source2 content2 Hdoc1 Hdoc2 Hhash.
  cbn in Hdoc1, Hdoc2.
  repeat (apply elem_of_cons in Hdoc1 as [Hdoc1|Hdoc1];
          [injection Hdoc1 as -> ->|]);
    [..|by apply elem_of_nil in Hdoc1];
    repeat (apply elem_of_cons in Hdoc2 as [Hdoc2|Hdoc2];
            [injection Hdoc2 as -> ->|]);
    try (by apply elem_of_nil in Hdoc2);
    first [reflexivity | vm_compute in Hhash; discriminate Hhash].
Defined.

(** The state after the import of [a.txt], holding [x], by a model that
    answers with the text of scenario B: the graph of scenario B is
    stored. *)
Abbreviation state_with_graph :=
  (import_document (Vector := nat) (Time := nat) sample_hash
     sample_summary_prompt sample_extract_prompt split_at_markers trim_record
     rabbit_completion steady_embedding sample_time sample_write_graphml
     "a.txt" "x" initial_state).2.

(** Witness of C9: the document of [a.txt] is removed, and [a.txt] is
    updated, with the graph of scenario B stored. *)
Lemma removal_keeps_graph_witness :
  kg_db state_with_graph = Stored scenario_B_graph /\
  kg_db (sample_remove_document_by_id "doc_x" state_with_graph).2
    = Stored scenario_B_graph /\
  exists graph',
    kg_db (sample_import_document "a.txt" "y" state_with_graph).2
      = sample_write_graphml graph' /\
    graph_extends scenario_B_graph graph'.
Proof.
  assert (Hgraph : kg_db state_with_graph = Stored scenario_B_graph)
    by (vm_compute; reflexivity).
  assert (Hok : (sample_import_document "a.txt" "y" state_with_graph).1 = Ok tt)
    by (vm_compute; reflexivity).
  destruct (removal_keeps_graph sample_hash sample_summary_prompt
              sample_extract_prompt split_at_markers trim_record
              quiet_completion steady_embedding sample_time sample_write_graphml
              "a.txt" "y" "doc_x" "doc_x" state_with_graph)
    as [Hremove Hupdate].
  split; [exact Hgraph|]. split; [rewrite Hremove; exact Hgraph|].
  destruct (Hupdate ltac:(vm_compute; reflexivity)
                    ltac:(vm_compute; discriminate))
    as (_ & _ & _ & Hkept).
  rewrite Hok, Hgraph in Hkept. exact Hkept.
Defined.

(** A run is its result paired with the state it leaves. *)
Lemma run_with_state {A S : Type} (run : A * S) (a : A) :
  run.1 = a -> run = (a, run.2).
Proof. destruct run as [a' st]. cbn. intros ->. reflexivity. Qed.

(** The loop of [embed_document] with an embedding model that answers its
    first five calls only. *)
Abbreviation failing_embed_loop :=
  (embed_loop (Vector := nat) (Time := nat) sample_hash sample_summary_prompt
     quiet_completion (failing_embedding 5) sample_time) (only parsing).

(** The state after the turn for the first excerpt of a content of 1801
    characters. *)
Abbreviation state_before_failure :=
  (failing_embed_loop (repeat_char "a" 1801) "doc" 0 [repeat_char "a" 1801]
     initial_state).2 (only parsing).

(** Witness of C10: a content of 1801 characters has two excerpts; the
    embedding model answers its first five calls, so the embedding call
    for the second excerpt raises. *)
Lemma embed_document_no_rollback_witness :
  exists st',
    embed_document (Vector := nat) (Time := nat) sample_hash
      sample_summary_prompt quiet_completion (failing_embedding 5) sample_time
      (repeat_char "a" 1801) "doc" initial_state
    = (Raise ModelCallError, st') /\
    is_Some (excerpt_db st'
               !! sample_hash (repeat_char "a" 1801) "excerpt_id_") /\
    is_Some (embeddings_db st'
               !! sample_hash (repeat_char "a" 1801) "excerpt_id_") /\
    doc_id_to_excerpt_ids st' = ∅ /\
    embeddings_file st' = ∅.
Proof.
  assert (Hexcerpts : get_excerpts (repeat_char "a" 1801) 2000 200
                      = Ok ([repeat_char "a" 1801] ++ "a" :: []))
    by (vm_compute; reflexivity).
  assert (Hbefore : failing_embed_loop (repeat_char "a" 1801) "doc" 0
                      [repeat_char "a" 1801] initial_state
                    = (Ok [sample_hash (repeat_char "a" 1801) "excerpt_id_"],
                       state_before_failure))
    by (apply run_with_state; vm_compute; reflexivity).
  assert (Hsummary : quiet_completion (clock state_before_failure)
                       (sample_summary_prompt (repeat_char "a" 1801) "a")
                     = Some COMPLETE_MARKER)
    by (vm_compute; reflexivity).
  assert (Hfails : failing_embedding 5 (S (clock state_before_failure))
                     ("a" +:+ newline +:+ newline +:+ COMPLETE_MARKER)
                   = None)
    by (vm_compute; reflexivity).
  destruct (embed_document_no_rollback (Vector := nat) (Time := nat)
              sample_hash sample_summary_prompt sample_extract_prompt
              split_at_markers trim_record quiet_completion
              (failing_embedding 5) sample_time sample_write_graphml
              (repeat_char "a" 1801) "doc" [repeat_char "a" 1801] [] "a"
              initial_state state_before_failure
              [sample_hash (repeat_char "a" 1801) "excerpt_id_"]
              Hexcerpts Hbefore
              (or_intror (ex_intro _ COMPLETE_MARKER (conj Hsummary Hfails))))
    as (st' & Hrun & _ & _ & _ & Hwritten & _ & Hids & Hfile & _).
  exists st'. split; [exact Hrun|].
  destruct (Hwritten (sample_hash (repeat_char "a" 1801) "excerpt_id_")
              (list_elem_of_here _ _))
    as [[record [Hrecord _]] [vector [Hvector _]]].
  split; [exists record; exact Hrecord|].
  split; [exists vector; exact Hvector|].
  split; [exact Hids | exact Hfile].
Defined.

(** ** The query path *)

Section QueryPath.

Context {Vector Time Score : Type}.

(** The embedding model, the metric of the vector index and the order on
    its scores, as before. *)
Variable get_embedding : nat -> string -> option Vector.
Variable similarity : Vector -> Vector -> Score.
Variable score_lt : Score -> Score -> bool.

(** [get_query_system_prompt] of [app.prompts]: some function of the
    excerpt records and of the hits of the vector query. *)
Variable get_query_system_prompt :
  gmap string (ExcerptRecord (Time := Time)) ->
  list (Score * (string * VecRecord (Vector := Vector) (Time := Time))) ->
  string.

(** [get_completion(text, context=...)]: the model client called with a
    context; like its other calls it is answered according to the number
    of calls made before, and [None] is a call that raises. *)
Variable get_completion_in_context : nat -> string -> string -> option string.

(** The literal [0.02] passed as [better_than_threshold]. *)
Variable QUERY_THRESHOLD : Score.

(** The hits [query] gets from the vector index for an embedded text. *)
Definition query_hits (embedding : Vector)
    (st : State (Vector := Vector) (Time := Time))
  : list (Score * (string * VecRecord)) :=
  vector_query similarity score_lt embedding 5 QUERY_THRESHOLD (embeddings_db st).

(** [query(text)] *)
Definition query (text : string) : M (Vector := Vector) (Time := Time) string :=
  bind (call (fun calls => get_embedding calls text)) (fun embedding =>
  bind (fun st => (Ok (query_hits embedding st), st)) (fun results =>
  bind (get_json EXCERPT_DB) (fun excerpt_db =>
  let system_prompt := get_query_system_prompt excerpt_db results in
  call (fun calls =>
          get_completion_in_context calls text (Py.strip system_prompt))))).

(** The run of [query]: the embedding call, then the completion call. *)
Lemma query_run (text : string) (st : State) :
  query text st =
  match get_embedding (clock st) text with
  | None => (Raise ModelCallError, tick st)
  | Some embedding =>
      (match get_completion_in_context (S (clock st)) text
               (Py.strip (get_query_system_prompt (excerpt_db st)
                            (query_hits embedding st))) with
       | Some answer => Ok answer
       | None => Raise ModelCallError
       end, tick (tick st))
  end.
Proof.
  unfold query, bind, call. cbn.
  destruct (get_embedding (clock st) text) as [embedding|]; reflexivity.
Qed.

(** X16. [query] writes nothing: whether it returns or raises, the four
    mapping files, the vector index and its file and the graph file are
    as before. When the embedding call raises, the completion model is not
    called. *)
Theorem query_reads_only (text : string) (st : State) :
  same_stores st (query text st).2 /\
  (get_embedding (clock st) text = None ->
   query text st = (Raise ModelCallError, tick st)).
Proof.
  rewrite query_run. split.
  - destruct (get_embedding (clock st) text); by repeat split.
  - by intros ->.
Qed.

Lemma length_until_below (threshold : Score)
    (ranked : list (Score * (string * VecRecord (Vector := Vector) (Time := Time)))) :
  (length (until_below score_lt threshold ranked) <= length ranked)%nat.
Proof.
  induction ranked as [|first rest IH]; cbn [until_below]; [done|].
  destruct (score_lt first.1 threshold); cbn; lia.
Qed.

Lemma until_below_not_below (threshold : Score)
    (ranked : list (Score * (string * VecRecord (Vector := Vector) (Time := Time))))
    (hit : Score * (string * VecRecord)) :
  hit ∈ until_below score_lt threshold ranked ->
  score_lt hit.1 threshold = false.
Proof.
  induction ranked as [|first rest IH]; cbn [until_below].
  - intros Hhit. by apply elem_of_nil in Hhit.
  - destruct (score_lt first.1 threshold) eqn:Hfirst.
    + intros Hhit. by apply elem_of_nil in Hhit.
    + intros Hhit. apply elem_of_cons in Hhit as [->|Hhit]; [exact Hfirst|].
      by apply IH.
Qed.

(** X17. The hits [query] hands to the prompt builder are at most five;
    each is a record of the vector index under its id, with the
    similarity of its vector to the embedded text as score, and no score
    is below the threshold. *)
Theorem query_hits_bounded (embedding : Vector) (st : State) :
  (length (query_hits embedding st) <= 5)%nat /\
  forall hit, hit ∈ query_hits embedding st ->
    embeddings_db st !! hit.2.1 = Some hit.2.2 /\
    hit.1 = similarity (v_vector hit.2.2) embedding /\
    score_lt hit.1 QUERY_THRESHOLD = false.
Proof.
  unfold query_hits, vector_query. split.
  - etransitivity; [apply length_until_below|]. rewrite length_take. lia.
  - intros hit Hhit.
    pose proof (until_below_not_below _ _ _ Hhit) as Hscore.
    apply elem_of_until_below in Hhit.
    apply (subseteq_take 5) in Hhit.
    apply elem_of_ranked in Hhit.
    apply list_elem_of_fmap in Hhit as [[key record] [-> Hentry]].
    apply elem_of_map_to_list in Hentry. cbn. by repeat split.
Qed.

Lemma ranked_nonempty_first
    (scored : list (Score * (string * VecRecord (Vector := Vector) (Time := Time)))) :
  match foldr (insert_by_score score_lt) [] scored with
  | [] => scored = []
  | first :: _ => first ∈ scored
  end.
Proof.
  destruct (foldr (insert_by_score score_lt) [] scored) as [|first rest] eqn:Hranked.
  - destruct scored as [|entry scored]; [reflexivity|]. cbn in Hranked.
    destruct (foldr (insert_by_score score_lt) [] scored) as [|f r];
      cbn in Hranked; [discriminate|].
    destruct (score_lt f.1 entry.1); discriminate.
  - apply (elem_of_ranked score_lt). rewrite Hranked. left.
Qed.

(** X18. When every record of the vector index scores below the
    threshold against the embedded text, and so when the index is empty,
    [query] has no hit and does not raise for that: the prompt is built
    from the excerpt records and an empty list of hits, the completion
    model is called with it, and [query] returns its answer, raising only
    when that call fails. *)
Theorem query_without_hits (text : string) (embedding : Vector) (st : State) :
  get_embedding (clock st) text = Some embedding ->
  (forall id record,
     embeddings_db st !! id = Some record ->
     score_lt (similarity (v_vector record) embedding) QUERY_THRESHOLD = true) ->
  query_hits embedding st = [] /\
  query text st =
  (match get_completion_in_context (S (clock st)) text
           (Py.strip (get_query_system_prompt (excerpt_db st) [])) with
   | Some answer => Ok answer
   | None => Raise ModelCallError
   end, tick (tick st)).
Proof.
  intros Hembedding Hbelow.
  assert (Hnone : query_hits embedding st = []).
  { unfold query_hits, vector_query.
    match goal with
    | |- context [foldr (insert_by_score score_lt) [] ?l] =>
        pose proof (ranked_nonempty_first l) as Hfirst;
        destruct (foldr (insert_by_score score_lt) [] l) as [|first rest]
    end; [reflexivity|].
    apply list_elem_of_fmap in Hfirst as [[key record] [-> Hentry]].
    apply elem_of_map_to_list in Hentry.
    cbn. by rewrite (Hbelow key record Hentry). }
  split; [exact Hnone|]. by rewrite query_run, Hembedding, Hnone.
Qed.

End QueryPath.

(** ** The further properties on the sample deployment *)

(** The import of one source with an embedding model whose every call
    raises. *)
Abbreviation failing_import_document :=
  (import_document (Vector := nat) (Time := nat) sample_hash
     sample_summary_prompt sample_extract_prompt split_at_markers trim_record
     quiet_completion (failing_embedding 0) sample_time sample_write_graphml)
  (only parsing).

(** The import of one source with models whose every call raises. *)
Abbreviation offline_import_document :=
  (import_document (Vector := nat) (Time := nat) sample_hash
     sample_summary_prompt sample_extract_prompt split_at_markers trim_record
     (fun _ _ => None) (fun _ _ => None) sample_time sample_write_graphml)
  (only parsing).

(** [query] with the sample embedding model and metric, a prompt builder
    that writes one mark per hit, a completion model that answers with its
    context, and a threshold of 100. *)
Abbreviation sample_query :=
  (query (Vector := nat) (Time := nat) (Score := nat) steady_embedding
     sample_similarity sample_score_lt
     (fun _ hits => repeat_char "h" (length hits))
     (fun _ _ context => Some context) 100%nat) (only parsing).

(** Witness of X1: a doc id nobody recorded. *)
Lemma remove_document_by_id_twice_witness :
  sample_remove_document_by_id "doc_none" initial_state = (Ok tt, initial_state).
Proof.
  exact (proj1 (remove_document_by_id_twice (Vector := nat) (Time := nat)
                  "doc_none" initial_state) eq_refl eq_refl).
Defined.

(** Witness of X3: the document of [a.txt] is removed, then the process
    restarts. *)
Lemma index_saved_after_write_witness :
  restart (sample_remove_document_by_id "doc_x" state_after_first_import).2
  = (sample_remove_document_by_id "doc_x" state_after_first_import).2.
Proof.
  apply (proj2 (index_saved_after_write sample_hash sample_summary_prompt
                  quiet_completion steady_embedding sample_time
                  "x" "doc_x" state_after_first_import initial_state)).
  exists ["excerpt_id_x"]. vm_compute. reflexivity.
Defined.

(** Witness of X4: the import of [a.txt] raises, and [b.txt] after it is
    not imported. *)
Lemma import_documents_stops_at_raise_witness :
  import_documents (Vector := nat) (Time := nat) sample_hash
    sample_summary_prompt sample_extract_prompt split_at_markers trim_record
    quiet_completion (failing_embedding 0) sample_time sample_write_graphml
    ([] ++ ("a.txt", "x") :: [("b.txt", "y")]) initial_state
  = (Raise ModelCallError,
     (failing_import_document "a.txt" "x" initial_state).2) /\
  source_to_doc_id_map
    (failing_import_document "a.txt" "x" initial_state).2 !! "b.txt" = None.
Proof.
  split; [|vm_compute; reflexivity].
  apply (proj2 (import_documents_stops_at_raise sample_hash
                  sample_summary_prompt sample_extract_prompt split_at_markers
                  trim_record quiet_completion (failing_embedding 0)
                  sample_time sample_write_graphml [] [("b.txt", "y")] ("a.txt", "x")
                  initial_state initial_state
                  (failing_import_document "a.txt" "x" initial_state).2
                  ModelCallError)).
  - reflexivity.
  - apply run_with_state. vm_compute. reflexivity.
Defined.

(** Witness of X5: with a graph file written and read without loss and
    the graph of scenario B stored, [a.txt] is updated, its new document
    is removed and the process restarts. *)
Lemma graph_only_grows_witness :
  write_keeps sample_write_graphml /\
  kg_db state_with_graph = Stored scenario_B_graph /\
  exists graph',
    kg_db (sample_run_operations
             [Import [("a.txt", "y")]; Remove "doc_y"; Restart]
             state_with_graph) = Stored graph' /\
    graph_extends scenario_B_graph graph'.
Proof.
  assert (Hkeeps : write_keeps sample_write_graphml).
  { intros graph. exists graph. split; [reflexivity | apply graph_extends_refl]. }
  assert (Hgraph : kg_db state_with_graph = Stored scenario_B_graph)
    by (vm_compute; reflexivity).
  split; [exact Hkeeps|]. split; [exact Hgraph|].
  exact (graph_only_grows sample_hash sample_summary_prompt
           sample_extract_prompt split_at_markers trim_record
           quiet_completion steady_embedding sample_time sample_write_graphml
           [Import [("a.txt", "y")]; Remove "doc_y"; Restart]
           state_with_graph scenario_B_graph Hkeeps Hgraph).
Defined.

(** Without that premise a stored graph can be lost. With a graph file
    the reader refuses for a control character in a node name, the import
    of [a.txt] stores the graph of scenario B; the import of [b.txt],
    whose entity has such a name, returns and leaves a file that cannot
    be read; the import of [c.txt] then starts from an empty graph, and
    the Rabbit and the Carrot are gone. *)
Lemma graph_lost_after_unreadable_write :
  kg_db
    (run_operations (Vector := nat) (Time := nat) sample_hash
       sample_summary_prompt sample_extract_prompt split_at_markers trim_record
       staged_completion steady_embedding sample_time strict_write_graphml
       [Import [("a.txt", "x")]] initial_state)
  = Stored scenario_B_graph /\
  kg_db
    (run_operations (Vector := nat) (Time := nat) sample_hash
       sample_summary_prompt sample_extract_prompt split_at_markers trim_record
       staged_completion steady_embedding sample_time strict_write_graphml
       [Import [("a.txt", "x")]; Import [("a.txt", "x"); ("b.txt", "y")]]
       initial_state)
  = Unreadable /\
  kg_db
    (run_operations (Vector := nat) (Time := nat) sample_hash
       sample_summary_prompt sample_extract_prompt split_at_markers trim_record
       staged_completion steady_embedding sample_time strict_write_graphml
       [Import [("a.txt", "x")]; Import [("a.txt", "x"); ("b.txt", "y")];
        Import [("a.txt", "x"); ("b.txt", "y"); ("c.txt", "z")]]
       initial_state)
  = Stored empty_graph.
Proof. repeat split; vm_compute; reflexivity. Qed.

(** Witness of X7: ten characters, a window of four, an overlap of one. *)
Lemma excerpts_cover_content_witness :
  get_excerpts "abcdefghij" 4 1 = Ok ["abcd"; "defg"; "ghij"; "j"] /\
  foldr String.append EmptyString
    (map (String.substring 0 (Z.to_nat (4 - 1))) ["abcd"; "defg"; "ghij"; "j"])
  = "abcdefghij".
Proof.
  assert (Hcut : get_excerpts "abcdefghij" 4 1 = Ok ["abcd"; "defg"; "ghij"; "j"])
    by (vm_compute; reflexivity).
  split; [exact Hcut|].
  apply (excerpts_cover_content "abcdefghij" 4 1 _ ltac:(lia) ltac:(lia) Hcut).
Defined.

(** Witness of X8: an empty file is imported while no model answers. *)
Lemma import_empty_document_witness :
  (offline_import_document "empty.txt" EmptyString initial_state).1 = Ok tt /\
  kg_db (offline_import_document "empty.txt" EmptyString initial_state).2
    = sample_write_graphml empty_graph /\
  doc_id_to_excerpt_ids
    (offline_import_document "empty.txt" EmptyString initial_state).2 !! "doc_"
    = Some [].
Proof.
  rewrite (import_empty_document (Vector := nat) (Time := nat) sample_hash
             sample_summary_prompt sample_extract_prompt split_at_markers
             trim_record (fun _ _ => None) (fun _ _ => None) sample_time
             sample_write_graphml "empty.txt" initial_state eq_refl).
  split; [reflexivity|]. split; [reflexivity|]. vm_compute. reflexivity.
Defined.

(** Witness of X9: the Rabbit of scenario B is described again. *)
Lemma entity_record_overwrites_witness :
  (nodes (apply_fields scenario_B_graph
            [quoted "Entity"; quoted "Rabbit"; quoted "Pet"; quoted "A tame one"])
     !! quoted "Rabbit") ≫= (.!! "description") = Some (quoted "A tame one").
Proof.
  exact (proj1 (proj2 (entity_record_overwrites scenario_B_graph
                         (quoted "Entity") (quoted "Rabbit") (quoted "Pet")
                         (quoted "A tame one") []
                         ltac:(vm_compute; reflexivity)))).
Defined.

(** Witness of X10: an edge between two names that are no nodes yet. *)
Lemma relationship_record_adds_edge_witness :
  (edges (apply_fields empty_graph
            [quoted "relationship"; quoted "Fox"; quoted "Rabbit";
             quoted "hunts"; quoted "diet"; quoted "0.7"])
     !! (quoted "Fox", quoted "Rabbit")) ≫= (.!! "weight") = Some (quoted "0.7") /\
  nodes (apply_fields empty_graph
           [quoted "relationship"; quoted "Fox"; quoted "Rabbit";
            quoted "hunts"; quoted "diet"; quoted "0.7"])
    !! quoted "Fox" = Some ∅.
Proof.
  destruct (relationship_record_adds_edge empty_graph
              (quoted "relationship") (quoted "Fox") (quoted "Rabbit")
              (quoted "hunts") (quoted "diet") (quoted "0.7") []
              ltac:(vm_compute; reflexivity))
    as (_ & _ & Hweight & _ & Hnodes & _).
  split; [exact Hweight|]. rewrite Hnodes. vm_compute. reflexivity.
Defined.

(** The state after a first, and after a second, indexing of ten
    characters. *)
Abbreviation state_indexed_once :=
  (sample_embed_document "abcdefghij" "doc" initial_state).2 (only parsing).
Abbreviation state_indexed_twice :=
  (sample_embed_document "abcdefghij" "doc" state_indexed_once).2
  (only parsing).

(** Witness of X12: a content of one excerpt. *)
Lemma excerpt_record_order_index_witness :
  exists record,
    excerpt_db state_indexed_once !! "excerpt_id_abcdefghij" = Some record /\
    x_doc_id record = "doc" /\
    ["abcdefghij"] !! x_doc_order_index record = Some (x_excerpt record).
Proof.
  destruct (excerpt_record_order_index sample_hash sample_summary_prompt
              quiet_completion steady_embedding sample_time
              "abcdefghij" "doc" initial_state state_indexed_once
              ltac:(apply run_with_state; vm_compute; reflexivity))
    as (excerpts & Hexcerpts & Hrecords).
  assert (Hone : get_excerpts "abcdefghij" 2000 200 = Ok ["abcdefghij"])
    by (vm_compute; reflexivity).
  rewrite Hone in Hexcerpts. injection Hexcerpts as <-.
  destruct (Hrecords "excerpt_id_abcdefghij" (list_elem_of_here _ _))
    as (record & Hrecord & Hdoc & _ & Hat & _).
  exists record. split; [exact Hrecord|]. split; [exact Hdoc | exact Hat].
Defined.

(** Witness of X13: the same ten characters indexed twice. *)
Lemma embed_document_again_witness :
  dom (embeddings_db state_indexed_twice) = dom (embeddings_db state_indexed_once) /\
  dom (excerpt_db state_indexed_twice) = dom (excerpt_db state_indexed_once) /\
  doc_id_to_excerpt_ids state_indexed_twice
    = doc_id_to_excerpt_ids state_indexed_once.
Proof.
  apply (embed_document_again sample_hash sample_summary_prompt
           quiet_completion steady_embedding sample_time
           "abcdefghij" "doc" initial_state state_indexed_once
           state_indexed_twice).
  - apply run_with_state. vm_compute. reflexivity.
  - apply run_with_state. vm_compute. reflexivity.
Defined.

(** Witness of X14: [a.txt] is imported into the initial state and its
    document is removed. *)
Lemma import_then_remove_witness :
  source_to_doc_id_map
    (sample_remove_document_by_id (sample_hash "x" "doc_")
       state_after_first_import).2 = ∅ /\
  excerpt_db
    (sample_remove_document_by_id (sample_hash "x" "doc_")
       state_after_first_import).2 = ∅ /\
  embeddings_db
    (sample_remove_document_by_id (sample_hash "x" "doc_")
       state_after_first_import).2 = ∅.
Proof.
  destruct (import_then_remove sample_hash sample_summary_prompt
              sample_extract_prompt split_at_markers trim_record
              quiet_completion steady_embedding sample_time sample_write_graphml
              "a.txt" "x" initial_state state_after_first_import
              eq_refl eq_refl eq_refl
              (fun _ _ _ _ => conj eq_refl eq_refl)
              ltac:(apply run_with_state; vm_compute; reflexivity))
    as (Hs2d & _ & _ & Hexc & Hdb).
  split; [exact Hs2d|]. split; [exact Hexc | exact Hdb].
Defined.

(** Witness of X15: [b.txt] is imported after [a.txt]. *)
Lemma import_new_source_only_adds_witness :
  source_to_doc_id_map
    (sample_import_document "b.txt" "y" state_after_first_import).2 !! "a.txt"
  = source_to_doc_id_map state_after_first_import !! "a.txt".
Proof.
  destruct (import_new_source_only_adds sample_hash sample_summary_prompt
              sample_extract_prompt split_at_markers trim_record
              quiet_completion steady_embedding sample_time sample_write_graphml
              "b.txt" "y" state_after_first_import
              ltac:(vm_compute; reflexivity))
    as (Hsources & _).
  apply Hsources. discriminate.
Defined.

(** Witness of X16: the embedding model is down when the question comes. *)
Lemma query_reads_only_witness :
  query (Vector := nat) (Time := nat) (Score := nat) (failing_embedding 0)
    sample_similarity sample_score_lt
    (fun _ hits => repeat_char "h" (length hits))
    (fun _ _ context => Some context) 100%nat
    "what do rabbits eat?" state_after_first_import
  = (Raise ModelCallError, tick state_after_first_import).
Proof.
  exact (proj2 (query_reads_only (failing_embedding 0) sample_similarity
                  sample_score_lt (fun _ hits => repeat_char "h" (length hits))
                  (fun _ _ context => Some context) 100%nat
                  "what do rabbits eat?" state_after_first_import) eq_refl).
Defined.

(** Witness of X18: the one record of the index scores below the
    threshold. *)
Lemma query_without_hits_witness :
  (sample_query "what do cats eat?" state_after_first_import).1
  = Ok EmptyString.
Proof.
  assert (Hindex : embeddings_db state_after_first_import
                   = {[ "excerpt_id_x" := mkVecRecord 15%nat "doc_x" 2%nat ]})
    by (vm_compute; reflexivity).
  destruct (query_without_hits steady_embedding sample_similarity
              sample_score_lt (fun _ hits => repeat_char "h" (length hits))
              (fun _ _ context => Some context) 100%nat
              "what do cats eat?" (String.length "what do cats eat?")
              state_after_first_import eq_refl) as [_ Hrun].
  - intros id record Hrecord. rewrite Hindex in Hrecord.
    apply lookup_singleton_Some in Hrecord as [_ <-]. vm_compute. reflexivity.
  - rewrite Hrun. reflexivity.
Defined.

(** Witness of X19: the content of 1801 characters whose second
    embedding call raises. *)
Lemma embed_document_raise_unsaved_witness :
  embeddings_file
    (embed_document (Vector := nat) (Time := nat) sample_hash
       sample_summary_prompt quiet_completion (failing_embedding 5) sample_time
       (repeat_char "a" 1801) "doc" initial_state).2 = ∅ /\
  doc_id_to_excerpt_ids
    (embed_document (Vector := nat) (Time := nat) sample_hash
       sample_summary_prompt quiet_completion (failing_embedding 5) sample_time
       (repeat_char "a" 1801) "doc" initial_state).2 = ∅.
Proof.
  destruct (embed_document_raise_unsaved (Vector := nat) (Time := nat)
              sample_hash sample_summary_prompt quiet_completion
              (failing_embedding 5) sample_time
              (repeat_char "a" 1801) "doc" initial_state ModelCallError
              ltac:(vm_compute; reflexivity))
    as (Hfile & Hids & _).
  split; [exact Hfile | exact Hids].
Defined.

(** Witness of X20: the import of [a.txt] raises, and is tried again. *)
Lemma import_raised_not_retried_witness :
  kg_db (failing_import_document "a.txt" "x" initial_state).2 = NoFile /\
  failing_import_document "a.txt" "x"
    (failing_import_document "a.txt" "x" initial_state).2
  = (Ok tt, (failing_import_document "a.txt" "x" initial_state).2).
Proof.
  destruct (import_raised_not_retried sample_hash sample_summary_prompt
              sample_extract_prompt split_at_markers trim_record
              quiet_completion (failing_embedding 0) sample_time sample_write_graphml
              "a.txt" "x" initial_state ModelCallError
              ltac:(vm_compute; reflexivity))
    as (Hkg & _ & Hagain).
  split; [exact Hkg | exact Hagain].
Defined.
